(** * Drug Approval Tracker: a shallow embedding of [drug_approval_tracker.py]

    The pipeline of the program (search, fetch, PDF / HTML text extraction,
    generative analysis, collection of records) is embedded as functions in
    a state-and-exception monad.  Everything outside the repository (the
    search provider, the HTTP client, the PDF and HTML parsers, the
    generative model, the JSON parser, the clock, the temporary-file name
    generator) is a field of a [world] record; the functions of the
    repository are translated line by line on top of it. *)

From Stdlib Require Import ZArith NArith Ascii String List Lia Bool Sorted.
From stdpp Require Import base gmap strings list.

Set Warnings "-register-all".

Local Open Scope string_scope.
Local Open Scope Z_scope.

(** ** Python strings

    A Python [str] is modelled as a Rocq [string] whose characters are the
    code points below 256.  The operations below are those the program
    applies to strings: slicing [s[:n]], [in], [strip], [splitlines] and
    [join]. *)

Module PyStr.

(** [len(s)] as an integer. *)
Definition len (s : string) : Z := Z.of_nat (String.length s).

(** The first [n] characters of [s] (all of [s] when it is shorter, none
    when [n <= 0]). *)
Fixpoint take (n : Z) (s : string) : string :=
  match s with
  | EmptyString => EmptyString
  | String c s' => if n <=? 0 then EmptyString else String c (take (n - 1) s')
  end.

(** [s[:n]]: a negative bound counts from the end of the string. *)
Definition slice_to (n : Z) (s : string) : string :=
  if 0 <=? n then take n s else take (len s + n) s.

(** [sub in s]. *)
Fixpoint is_prefix (p s : string) : bool :=
  match p, s with
  | EmptyString, _ => true
  | String _ _, EmptyString => false
  | String a p', String b s' => if Ascii.eqb a b then is_prefix p' s' else false
  end.

Fixpoint contains (sub s : string) : bool :=
  is_prefix sub s ||
  match s with
  | EmptyString => false
  | String _ s' => contains sub s'
  end.

(** [str.isspace] on the code points below 256: TAB, LF, VT, FF, CR, the
    four separators FS, GS, RS, US, SPACE, NEL and NBSP. *)
Definition isspace (c : ascii) : bool :=
  let n := N_of_ascii c in
  (((9 <=? n) && (n <=? 13)) || ((28 <=? n) && (n <=? 32)) ||
   (n =? 133) || (n =? 160))%N.

Fixpoint mem (c : ascii) (chars : string) : bool :=
  match chars with
  | EmptyString => false
  | String d chars' => Ascii.eqb c d || mem c chars'
  end.

Definition is_empty (s : string) : bool :=
  match s with EmptyString => true | String _ _ => false end.

Fixpoint lstrip_by (p : ascii -> bool) (s : string) : string :=
  match s with
  | EmptyString => EmptyString
  | String c s' => if p c then lstrip_by p s' else s
  end.

Fixpoint rstrip_by (p : ascii -> bool) (s : string) : string :=
  match s with
  | EmptyString => EmptyString
  | String c s' =>
      let r := rstrip_by p s' in
      if is_empty r && p c then EmptyString else String c r
  end.

(** [s.strip()] removes white space at both ends; [s.strip(chars)] removes,
    at both ends, every character that occurs in [chars] (a set of
    characters, not a prefix or suffix). *)
Definition strip_by (p : ascii -> bool) (s : string) : string :=
  rstrip_by p (lstrip_by p s).

Definition strip (s : string) : string := strip_by isspace s.

Definition strip_chars (chars s : string) : string :=
  strip_by (fun c => mem c chars) s.

(** The line boundaries of [str.splitlines] below 256: LF, VT, FF, CR (and
    CR LF as one boundary), FS, GS, RS and NEL. *)
Definition is_linebreak (c : ascii) : bool :=
  let n := N_of_ascii c in
  (((10 <=? n) && (n <=? 13)) || ((28 <=? n) && (n <=? 30)) || (n =? 133))%N.

Definition CR : ascii := ascii_of_nat 13.
Definition LF : ascii := ascii_of_nat 10.

(** [splitlines_aux cur s]: [cur] is the line read so far, reversed. A
    final line is produced only when it is not empty, as in Python
    (["a\n".splitlines() == ["a"]], ["".splitlines() == []]). *)
Fixpoint splitlines_aux (cur : list ascii) (s : string) : list string :=
  match s with
  | EmptyString =>
      match cur with
      | [] => []
      | _ => [string_of_list_ascii (rev cur)]
      end
  | String c s' =>
      if is_linebreak c then
        let rest :=
          match s' with
          | String d s'' =>
              if Ascii.eqb c CR && Ascii.eqb d LF then s'' else s'
          | EmptyString => s'
          end in
        string_of_list_ascii (rev cur) :: splitlines_aux [] rest
      else splitlines_aux (c :: cur) s'
  end.

Definition splitlines (s : string) : list string := splitlines_aux [] s.

(** [sep.join(parts)]. *)
Fixpoint join (sep : string) (parts : list string) : string :=
  match parts with
  | [] => EmptyString
  | [p] => p
  | p :: rest => p ++ sep ++ join sep rest
  end.

End PyStr.

(** ** Data model *)

(** A Python [float], kept as [mant * 2 ^ expo]; the program only stores
    and compares such values, it never computes with them. *)
Record pyfloat := PyFloat { mant : Z; expo : Z }.

(** The Python values a parsed JSON document or a record field can hold. *)
Inductive pyval :=
| PNone
| PBool (b : bool)
| PInt (z : Z)
| PFloat (f : pyfloat)
| PStr (s : string)
| PList (l : list pyval)
| PDict (d : gmap string pyval).

(** A record of the result list is a Python [dict] with string keys. *)
Abbreviation dict := (gmap string pyval).

(** [Config], with the defaults of the dataclass. *)
Record Config := {
  max_results : Z;
  serpapi_delay : pyfloat;
  gemini_delay : pyfloat;
  max_retries : Z;
  request_timeout : Z;
  max_text_length : Z
}.

Definition config : Config := {|
  max_results := 10;
  serpapi_delay := PyFloat 2 0;
  gemini_delay := PyFloat 3 (-1);
  max_retries := 3;
  request_timeout := 30;
  max_text_length := 8000
|}.

(** One element of [organic_results]: the three keys the program reads,
    each possibly absent. *)
Record hit := {
  link : option string;
  title : option string;
  snippet : option string
}.

(** The [params] handed to [GoogleSearch]. *)
Record search_params := {
  q : string;
  api_key : string;
  engine : string;
  num : Z;
  tbs : string;
  safe : string
}.

(** What [requests.get] returns: status code, the [content-type] header
    when present, the body as bytes and the body decoded as text. *)
Record response := {
  status_code : Z;
  content_type : option string;
  content : list Byte.byte;
  text : string
}.

(** What [model.generate_content] does: it raises, or it returns a
    response whose [.text] accessor raises ([None]) or yields a string. *)
Inductive generation :=
| GenRaises
| GenResponse (response_text : option string).

(** The exceptions of the model, one per place that can raise. *)
Inductive exn :=
| SearchError
| RequestException
| HTTPError (status : Z)
| FileNotFoundError
| PdfError
| HtmlError
| GenerationError
| ResponseTextError
| JSONDecodeError
| TypeError.

(** Observable actions, in the order they happen. *)
Inductive event :=
| EvLogInfo (msg : string)
| EvLogError (msg : string) (e : exn)
| EvSearch (params : search_params)
| EvSleep (seconds : pyfloat)
| EvGet (url : string) (timeout : Z)
| EvTmpCreate (path : string)
| EvPdfOpen (path : string)
| EvUnlink (path : string)
| EvHtmlParse
| EvGenerate (prompt : string).

(** The state the program runs in: [tick] counts the calls made to the
    outside world so far (the answers of the outside world may depend on
    it), [files] is the content of the temporary directory and [trace] the
    actions performed, oldest first. *)
Record state := {
  tick : nat;
  files : gmap string (list Byte.byte);
  trace : list event
}.

(** The collaborators outside the repository.  [None] stands for a raised
    exception.  The parsers are functions of their input; the network, the
    model, the clock and the name generator also depend on the time of the
    call. *)
Record world := {
  (** [GoogleSearch(params).get_dict()]: the value under
      ['organic_results'], when the key is there. *)
  serpapi_get_dict : nat -> search_params -> option (option (list hit));
  (** [requests.get(url, headers=..., timeout=...)]. *)
  requests_get : nat -> string -> Z -> option response;
  (** [fitz.open] on a file with the given content, then [get_text] of
      each page, in page order. *)
  fitz_open : list Byte.byte -> option (list (option string));
  (** [BeautifulSoup(html, 'html.parser')], removal of the [script] and
      [style] elements, then [get_text()]. *)
  bs4_get_text : string -> option string;
  (** [model.generate_content(prompt)]. *)
  generate_content : nat -> string -> generation;
  (** [json.loads]. *)
  json_loads : string -> option pyval;
  (** [datetime.now().isoformat()]. *)
  datetime_now_isoformat : nat -> string;
  (** The path chosen by [tempfile.NamedTemporaryFile(suffix='.pdf')]. *)
  tempfile_name : nat -> string
}.

(** ** The monad of the program: state and exceptions *)

Inductive outcome (A : Type) :=
| Returned (a : A)
| Raised (e : exn).
Arguments Returned {A} a.
Arguments Raised {A} e.

Definition M (A : Type) : Type := state -> outcome A * state.

Definition ret {A} (a : A) : M A := fun s => (Returned a, s).

Definition raise {A} (e : exn) : M A := fun s => (Raised e, s).

Definition bind {A B} (m : M A) (k : A -> M B) : M B :=
  fun s =>
    match m s with
    | (Returned a, s') => k a s'
    | (Raised e, s') => (Raised e, s')
    end.

Notation "'let!' x ':=' m 'in' k" := (bind m (fun x => k))
  (at level 10, x name, m at level 100, k at level 200,
   format "'[v' 'let!'  x  ':='  m  'in' '/' k ']'").
Notation "'run!' m 'in' k" := (bind m (fun _ => k))
  (at level 10, m at level 100, k at level 200,
   format "'[v' 'run!'  m  'in' '/' k ']'").

(** [try: body except Exception as e: handler e]. *)
Definition try_except {A} (body : M A) (handler : exn -> M A) : M A :=
  fun s =>
    match body s with
    | (Returned a, s') => (Returned a, s')
    | (Raised e, s') => handler e s'
    end.

Definition emit (ev : event) : M unit :=
  fun s => (Returned tt,
            {| tick := tick s; files := files s; trace := trace s ++ [ev] |}).

(** A call to the outside world: the answer is the one for the current
    tick, and the tick advances. *)
Definition ask {A} (f : nat -> A) : M A :=
  fun s => (Returned (f (tick s)),
            {| tick := S (tick s); files := files s; trace := trace s |}).

Definition get_files : M (gmap string (list Byte.byte)) :=
  fun s => (Returned (files s), s).

Definition set_files (fs : gmap string (list Byte.byte)) : M unit :=
  fun s => (Returned tt, {| tick := tick s; files := fs; trace := trace s |}).

(** [time.sleep(seconds)]. *)
Definition time_sleep (seconds : pyfloat) : M unit := emit (EvSleep seconds).

(** [logger.info] and [logger.error]. *)
Definition logger_info (msg : string) : M unit := emit (EvLogInfo msg).
Definition logger_error (msg : string) (e : exn) : M unit :=
  emit (EvLogError msg e).

(** ** The program *)

Definition DQ : string := String (ascii_of_nat 34) EmptyString.
Definition NL : string := String (ascii_of_nat 10) EmptyString.

(** [d.get(key, '')] on a search result. *)
Definition get_or_empty (field : option string) : string :=
  match field with
  | Some v => v
  | None => EmptyString
  end.

(** The query of [search_drug_approvals] for an agency domain. *)
Definition build_query (agency_domain : string) : string :=
  if String.eqb agency_domain "fda.gov" then
    "site:fda.gov drug approval " ++ DQ ++ "approved" ++ DQ ++ " -generic"
  else if String.eqb agency_domain "ema.europa.eu" then
    "site:ema.europa.eu " ++ DQ ++ "marketing authorisation" ++ DQ ++
    " drug approved"
  else if String.eqb agency_domain "cdsco.gov.in" then
    "site:cdsco.gov.in drug approval " ++ DQ ++ "approved" ++ DQ ++ " license"
  else
    "drug approval " ++ DQ ++ "approved" ++ DQ ++ " FDA OR EMA OR CDSCO".

(** The [params] dictionary of [search_drug_approvals]. *)
Definition build_params (query self_api_key date_range : string)
    (num_results : Z) : search_params := {|
  q := query;
  api_key := self_api_key;
  engine := "google";
  num := num_results;
  tbs := "qdr:" ++ date_range;
  safe := "active"
|}.

(** One line of the schema example of the prompt. *)
Definition schema_line (key value : string) : string :=
  "    " ++ DQ ++ key ++ DQ ++ ": " ++ DQ ++ value ++ DQ.

(** The prompt of [analyze_content]; [shown] is [content[:4000]]. *)
Definition build_prompt (shown url : string) : string :=
  NL ++
  "Analyze this drug approval document and extract key information in JSON format:"
  ++ NL ++ NL ++
  "Content: " ++ shown ++ NL ++ NL ++
  "{" ++ NL ++
  schema_line "drug_name" "" ++ "," ++ NL ++
  schema_line "sponsor_company" "" ++ "," ++ NL ++
  schema_line "approval_date" "" ++ "," ++ NL ++
  schema_line "indication" "" ++ "," ++ NL ++
  schema_line "drug_type" "" ++ "," ++ NL ++
  schema_line "regulatory_action" "" ++ "," ++ NL ++
  schema_line "approval_status" "" ++ "," ++ NL ++
  schema_line "therapeutic_area" "" ++ "," ++ NL ++
  schema_line "source_agency" "" ++ "," ++ NL ++
  schema_line "source_url" url ++ "," ++ NL ++
  schema_line "confidence_score" "" ++ NL ++
  "}" ++ NL ++ NL ++
  "If information is unavailable, return " ++ DQ ++ "Not specified" ++ DQ ++
  "." ++ NL.

(** The dictionary returned by the [except] branch of [analyze_content]. *)
Definition fallback_record (url now : string) : dict :=
  <["extraction_timestamp" := PStr now]>
  (<["confidence_score" := PFloat (PyFloat 0 0)]>
  (<["source_url" := PStr url]>
  (<["source_agency" := PStr "Not specified"]>
  (<["therapeutic_area" := PStr "Not specified"]>
  (<["approval_status" := PStr "Not specified"]>
  (<["regulatory_action" := PStr "Not specified"]>
  (<["drug_type" := PStr "Not specified"]>
  (<["indication" := PStr "Not specified"]>
  (<["approval_date" := PStr "Not specified"]>
  (<["sponsor_company" := PStr "Not specified"]>
  (<["drug_name" := PStr "Analysis failed"]> ∅))))))))))).

(** [requests]' [Response.raise_for_status]: an [HTTPError] for a client
    error (4xx) or a server error (5xx) status, nothing otherwise. *)
Definition raise_for_status (r : response) : M unit :=
  if (400 <=? status_code r) && (status_code r <? 600)
  then raise (HTTPError (status_code r))
  else ret tt.

(** [result[key] = value]: a [TypeError] unless [result] is a [dict]. *)
Definition setitem (result : pyval) (key : string) (value : pyval) : M dict :=
  match result with
  | PDict d => ret (<[key := value]> d)
  | _ => raise TypeError
  end.

(** [os.unlink(path)]. *)
Definition os_unlink (path : string) : M unit :=
  let! fs := get_files in
  match fs !! path with
  | None => raise FileNotFoundError
  | Some _ =>
      run! set_files (delete path fs) in
      emit (EvUnlink path)
  end.

Section Program.

Context (w : world) (cfg : Config).

(** [GoogleSearch(params).get_dict()]. *)
Definition google_search_get_dict (params : search_params)
  : M (option (list hit)) :=
  run! emit (EvSearch params) in
  let! r := ask (fun t => serpapi_get_dict w t params) in
  match r with
  | None => raise SearchError
  | Some results => ret results
  end.

(** [SearchManager.search_drug_approvals]. *)
Definition search_drug_approvals (self_api_key agency_domain date_range : string)
    (num_results : Z) : M (list hit) :=
  let query := build_query agency_domain in
  let params := build_params query self_api_key date_range num_results in
  try_except
    (run! logger_info ("Searching: " ++ query) in
     let! results := google_search_get_dict params in
     run! time_sleep (serpapi_delay cfg) in
     ret (match results with
          | Some organic_results => organic_results
          | None => []
          end))
    (fun e =>
       run! logger_error "Search failed: " e in
       ret []).

(** [tempfile.NamedTemporaryFile(suffix='.pdf', delete=False)], the write
    of [pdf_content] and the end of the [with] block: the file stays on
    disk under the returned name. *)
Definition named_temporary_file (pdf_content : list Byte.byte) : M string :=
  let! tmp_path := ask (tempfile_name w) in
  let! fs := get_files in
  run! set_files (<[tmp_path := pdf_content]> fs) in
  run! emit (EvTmpCreate tmp_path) in
  ret tmp_path.

(** [for page in doc: text += page.get_text()]. *)
Fixpoint read_pages (pages : list (option string)) (text : string) : M string :=
  match pages with
  | [] => ret text
  | None :: _ => raise PdfError
  | Some page_text :: rest => read_pages rest (text ++ page_text)
  end.

(** [text = ""], then the [with fitz.open(tmp_path) as doc] block. *)
Definition fitz_read (tmp_path : string) : M string :=
  let! fs := get_files in
  match fs !! tmp_path with
  | None => raise FileNotFoundError
  | Some bytes =>
      run! emit (EvPdfOpen tmp_path) in
      match fitz_open w bytes with
      | None => raise PdfError
      | Some pages => read_pages pages EmptyString
      end
  end.

(** [ContentExtractor._extract_pdf_content]. *)
Definition _extract_pdf_content (pdf_content : list Byte.byte) : M string :=
  try_except
    (let! tmp_path := named_temporary_file pdf_content in
     let! text := fitz_read tmp_path in
     run! os_unlink tmp_path in
     ret (PyStr.slice_to (max_text_length cfg) text))
    (fun e =>
       run! logger_error "PDF parse failed: " e in
       ret EmptyString).

(** The soup of [html] without its [script] and [style] elements, then
    [soup.get_text()]. *)
Definition soup_get_text (html : string) : M string :=
  run! emit EvHtmlParse in
  match bs4_get_text w html with
  | None => raise HtmlError
  | Some raw => ret raw
  end.

(** [' '.join(line.strip() for line in raw.splitlines() if line.strip())]. *)
Definition normalize_lines (raw : string) : string :=
  PyStr.join " "
    (List.filter (fun l => negb (PyStr.is_empty l))
                 (List.map PyStr.strip (PyStr.splitlines raw))).

(** [ContentExtractor._extract_html_content]. *)
Definition _extract_html_content (html : string) : M string :=
  try_except
    (let! raw := soup_get_text html in
     let text := normalize_lines raw in
     ret (PyStr.slice_to (max_text_length cfg) text))
    (fun e =>
       run! logger_error "HTML parse failed: " e in
       ret EmptyString).

(** [requests.get(url, headers=headers, timeout=...)]. *)
Definition http_get (url : string) (timeout : Z) : M response :=
  run! emit (EvGet url timeout) in
  let! r := ask (fun t => requests_get w t url timeout) in
  match r with
  | None => raise RequestException
  | Some resp => ret resp
  end.

(** ['pdf' in response.headers.get('content-type', '')]. *)
Definition declares_pdf (resp : response) : bool :=
  PyStr.contains "pdf" (get_or_empty (content_type resp)).

(** [ContentExtractor.extract_content]. *)
Definition extract_content (url : string) : M string :=
  try_except
    (let! resp := http_get url (request_timeout cfg) in
     run! raise_for_status resp in
     if declares_pdf resp
     then _extract_pdf_content (content resp)
     else _extract_html_content (text resp))
    (fun e =>
       run! logger_error ("Content extraction failed for " ++ url ++ ": ") e in
       ret EmptyString).

(** [self.model.generate_content(prompt)]. *)
Definition model_generate_content (prompt : string) : M (option string) :=
  run! emit (EvGenerate prompt) in
  let! g := ask (fun t => generate_content w t prompt) in
  match g with
  | GenRaises => raise GenerationError
  | GenResponse resp => ret resp
  end.

(** [response.text]. *)
Definition response_text (resp : option string) : M string :=
  match resp with
  | None => raise ResponseTextError
  | Some t => ret t
  end.

(** [response.text.strip().strip("```json").strip("```")]. *)
Definition strip_fences (raw : string) : string :=
  PyStr.strip_chars "```" (PyStr.strip_chars "```json" (PyStr.strip raw)).

(** [json.loads(text)]. *)
Definition json_loads_text (t : string) : M pyval :=
  match json_loads w t with
  | None => raise JSONDecodeError
  | Some v => ret v
  end.

(** [AIAnalyzer.analyze_content]. *)
Definition analyze_content (content url : string) : M dict :=
  let prompt := build_prompt (PyStr.slice_to 4000 content) url in
  try_except
    (let! resp := model_generate_content prompt in
     run! time_sleep (gemini_delay cfg) in
     let! raw := response_text resp in
     let t := strip_fences raw in
     let! result := json_loads_text t in
     let! now := ask (datetime_now_isoformat w) in
     setitem result "extraction_timestamp" (PStr now))
    (fun e =>
       run! logger_error "AI analysis failed: " e in
       let! now := ask (datetime_now_isoformat w) in
       ret (fallback_record url now)).

(** [analysis.update({'search_title': ..., 'search_snippet': ...,
    'search_position': i + 1})]. *)
Definition update_provenance (analysis : dict) (res : hit) (i : nat) : dict :=
  <["search_position" := PInt (Z.of_nat i + 1)]>
  (<["search_snippet" := PStr (get_or_empty (snippet res))]>
  (<["search_title" := PStr (get_or_empty (title res))]> analysis)).

(** The loop [for i, res in enumerate(results)] of [track_approvals]; [i]
    is the index of the head of [results] and [processed] the list
    built so far. *)
Fixpoint for_each_result (i : nat) (results : list hit) (processed : list dict)
  : M (list dict) :=
  match results with
  | [] => ret processed
  | res :: rest =>
      let url := get_or_empty (link res) in
      let! content := extract_content url in
      if PyStr.is_empty content then for_each_result (S i) rest processed
      else
        let! analysis := analyze_content content url in
        let analysis := update_provenance analysis res i in
        for_each_result (S i) rest (processed ++ [analysis])
  end.

(** [DrugApprovalTracker.track_approvals]. *)
Definition track_approvals (serpapi_api_key agency_domain date_range : string)
    (num_results : Z) : M (list dict) :=
  let! results :=
    search_drug_approvals serpapi_api_key agency_domain date_range num_results in
  for_each_result 0 results [].

End Program.

(** ** Observations on states, records and traces *)

Definition init_state : state := {| tick := 0; files := ∅; trace := [] |}.

(** The twelve keys of the schema. *)
Definition required_keys : list string :=
  [ "drug_name"; "sponsor_company"; "approval_date"; "indication";
    "drug_type"; "regulatory_action"; "approval_status"; "therapeutic_area";
    "source_agency"; "source_url"; "confidence_score";
    "extraction_timestamp" ].

(** The eight descriptive keys that the fallback record fills with the
    sentinel. *)
Definition sentinel_keys : list string :=
  [ "sponsor_company"; "approval_date"; "indication"; "drug_type";
    "regulatory_action"; "approval_status"; "therapeutic_area";
    "source_agency" ].

Definition has_key (d : dict) (k : string) : bool :=
  match d !! k with
  | Some _ => true
  | None => false
  end.

Definition has_all_keys (d : dict) : bool :=
  forallb (has_key d) required_keys.

(** A Python value seen as a [dict], when it is one. *)
Definition as_object (v : pyval) : option dict :=
  match v with
  | PDict d => Some d
  | _ => None
  end.

(** The actions performed between the states [s] and [s']. *)
Definition new_events (s s' : state) : list event :=
  drop (List.length (trace s)) (trace s').

(** The integer under ['search_position'], when there is one. *)
Definition search_position_of (d : dict) : option Z :=
  match d !! "search_position" with
  | Some (PInt z) => Some z
  | _ => None
  end.

(** The records of a result list that carry the position [p]. *)
Definition records_at_position (p : Z) (processed : list dict) : list dict :=
  List.filter
    (fun d => match search_position_of d with
              | Some z => z =? p
              | None => false
              end)
    processed.

Definition is_sleep (ev : event) : bool :=
  match ev with
  | EvSleep _ => true
  | _ => false
  end.

Definition is_generate (ev : event) : bool :=
  match ev with
  | EvGenerate _ => true
  | _ => false
  end.

Definition is_pdf_event (ev : event) : bool :=
  match ev with
  | EvTmpCreate _ | EvPdfOpen _ | EvUnlink _ => true
  | _ => false
  end.

Definition is_html_event (ev : event) : bool :=
  match ev with
  | EvHtmlParse => true
  | _ => false
  end.

(** The header is present and the text [pdf], in lower case, occurs
    somewhere in its value: what the test of [extract_content] asks for,
    stated without the search. *)
Definition mentions_pdf (header : option string) : Prop :=
  exists ct pre post, header = Some ct /\ ct = pre ++ "pdf" ++ post.

(** [s] after the actions [evs]. *)
Definition logged (s : state) (evs : list event) : state :=
  {| tick := tick s; files := files s; trace := trace s ++ evs |}.

(** [s] after one call to the outside world. *)
Definition ticked (s : state) : state :=
  {| tick := S (tick s); files := files s; trace := trace s |}.

(** [s] with the temporary directory [fs]. *)
Definition with_files (s : state) (fs : gmap string (list Byte.byte)) : state :=
  {| tick := tick s; files := fs; trace := trace s |}.

(** The text of all pages, in page order, after [acc]; [None] when a page
    cannot be read. *)
Fixpoint pages_text (pages : list (option string)) (acc : string)
  : option string :=
  match pages with
  | [] => Some acc
  | None :: _ => None
  | Some t :: rest => pages_text rest (acc ++ t)
  end.

(** What the PDF parser reads from a file: the text of the document, or
    [None] when opening the file or reading a page fails. *)
Definition pdf_text (w : world) (bytes : list Byte.byte) : option string :=
  match fitz_open w bytes with
  | Some pages => pages_text pages EmptyString
  | None => None
  end.

Section Observations.

Context (w : world) (cfg : Config).

(** The state in which the loop of [track_approvals], started in [s] on
    [results], reaches the hit of index [i]. *)
Definition state_at (s : state) (results : list hit) (i : nat) : state :=
  snd (for_each_result w cfg 0 (firstn i results) [] s).

(** One turn of the loop, for the hit [res] of index [i] in state [s]: the
    record appended to the list, if any, and the state afterwards. *)
Definition iteration (i : nat) (res : hit) (s : state) : option dict * state :=
  let url := get_or_empty (link res) in
  match extract_content w cfg url s with
  | (Returned content, s1) =>
      if PyStr.is_empty content then (None, s1)
      else
        match analyze_content w cfg content url s1 with
        | (Returned analysis, s2) => (Some (update_provenance analysis res i), s2)
        | (Raised _, s2) => (None, s2)
        end
  | (Raised _, s1) => (None, s1)
  end.

(** The record that the hit of index [j] of [results] contributes, when
    the loop starts in state [s] and numbers the hits from [i0]. *)
Definition record_from (i0 : nat) (s : state) (results : list hit) (j : nat)
  : option dict :=
  match results !! j with
  | Some res => fst (iteration (i0 + j) res (state_at s results j))
  | None => None
  end.

Definition record_of_hit (s : state) (results : list hit) (j : nat)
  : option dict :=
  record_from 0 s results j.

(** Whether the Content Extractor yields text for the hit of index [i]. *)
Definition yields_text (s : state) (results : list hit) (i : nat) : bool :=
  match results !! i with
  | Some res =>
      match fst (extract_content w cfg (get_or_empty (link res))
                                 (state_at s results i)) with
      | Returned t => negb (PyStr.is_empty t)
      | Raised _ => false
      end
  | None => false
  end.

(** The state right after the request for [url] was answered. *)
Definition after_get (s : state) (url : string) : state :=
  ticked (logged s [EvGet url (request_timeout cfg)]).

(** The state right after the model was called with [prompt]. *)
Definition after_generate (s : state) (prompt : string) : state :=
  ticked (logged s [EvGenerate prompt]).

(** The state after the pacing delay that follows a returned call. *)
Definition after_pause (s : state) (prompt : string) : state :=
  logged (after_generate s prompt) [EvSleep (gemini_delay cfg)].

(** The JSON object that [analyze_content] obtains from the model for the
    given prompt in state [s]: the call returns, the response has text,
    the text without its fences parses, and the parsed value is an
    object. *)
Definition model_object (s : state) (prompt : string) : option dict :=
  match generate_content w (tick s) prompt with
  | GenRaises => None
  | GenResponse None => None
  | GenResponse (Some raw) =>
      match json_loads w (strip_fences raw) with
      | None => None
      | Some v => as_object v
      end
  end.

(** The generative call, for the given prompt in state [s], ends in the
    [except] branch of [analyze_content]: the call raises, the response has
    no text, the text without its fences is not JSON, or the JSON value is
    not an object. *)
Definition extraction_fails (s : state) (prompt : string) : Prop :=
  match generate_content w (tick s) prompt with
  | GenRaises => True
  | GenResponse None => True
  | GenResponse (Some raw) =>
      match json_loads w (strip_fences raw) with
      | None => True
      | Some v => as_object v = None
      end
  end.

(** What the [except] branch of [analyze_content] returns when it is
    entered in state [s] with the exception [e]. *)
Definition failed_analysis (url : string) (s : state) (e : exn)
  : outcome dict * state :=
  (Returned (fallback_record url (datetime_now_isoformat w (tick s))),
   ticked (logged s [EvLogError "AI analysis failed: " e])).

(** The ways a fetch fails, for the URL [url] requested in state [s]: the
    request raises, the status is a client or server error, the PDF cannot
    be parsed, the HTML cannot be parsed. *)
Inductive fetch_failure (s : state) (url : string) : Prop :=
| FailRequest :
    requests_get w (tick s) url (request_timeout cfg) = None ->
    fetch_failure s url
| FailStatus resp :
    requests_get w (tick s) url (request_timeout cfg) = Some resp ->
    400 <= status_code resp < 600 ->
    fetch_failure s url
| FailPdf resp :
    requests_get w (tick s) url (request_timeout cfg) = Some resp ->
    declares_pdf resp = true ->
    pdf_text w (content resp) = None ->
    fetch_failure s url
| FailHtml resp :
    requests_get w (tick s) url (request_timeout cfg) = Some resp ->
    declares_pdf resp = false ->
    bs4_get_text w (text resp) = None ->
    fetch_failure s url.

End Observations.

(** ** Concrete worlds *)

Module Demo.

Definition url_down : string := "https://www.fda.gov/down".
Definition url_news : string := "https://www.fda.gov/news".
Definition url_label : string := "https://www.fda.gov/label.pdf".
Definition url_broken : string := "https://www.fda.gov/broken.pdf".
Definition url_choices : string := "https://www.fda.gov/choices".
Definition url_other : string := "https://example.org/other".

Definition news_text : string := "Drug X approved for indication Y".

Definition good_pdf : list Byte.byte := [Byte.x25; Byte.x50; Byte.x44; Byte.x46].
Definition bad_pdf : list Byte.byte := [Byte.x00].

Definition tmp_path : string := "/tmp/tmpk3v9x2.pdf".
Definition now : string := "2025-06-01T12:00:00.000000".

Definition hit_down : hit :=
  {| link := Some url_down; title := Some "Down"; snippet := Some "" |}.
Definition hit_news : hit :=
  {| link := Some url_news; title := Some "News"; snippet := Some "approved" |}.
Definition hit_label : hit :=
  {| link := Some url_label; title := Some "Label"; snippet := None |}.
Definition hit_broken : hit :=
  {| link := Some url_broken; title := None; snippet := None |}.

Definition hits : list hit := [hit_down; hit_news; hit_broken; hit_label].

(** The web: one unreachable URL, one HTML page, one PDF, one corrupt PDF,
    one page answered with status 300, and 404 for the rest. *)
Definition get (_ : nat) (url : string) (_ : Z) : option response :=
  if String.eqb url url_down then None
  else if String.eqb url url_news then
    Some {| status_code := 200; content_type := Some "text/html; charset=utf-8";
            content := []; text := news_text |}
  else if String.eqb url url_label then
    Some {| status_code := 200; content_type := Some "application/pdf";
            content := good_pdf; text := "" |}
  else if String.eqb url url_broken then
    Some {| status_code := 200; content_type := Some "application/pdf";
            content := bad_pdf; text := "" |}
  else if String.eqb url url_choices then
    Some {| status_code := 300; content_type := None;
            content := []; text := news_text |}
  else
    Some {| status_code := 404; content_type := Some "text/html";
            content := []; text := "Not Found" |}.

Fixpoint bytes_eqb (a b : list Byte.byte) : bool :=
  match a, b with
  | [], [] => true
  | x :: a', y :: b' => Byte.eqb x y && bytes_eqb a' b'
  | _, _ => false
  end.

(** The PDF parser reads two pages from [good_pdf] and fails to open
    anything else. *)
Definition pdf_pages (bytes : list Byte.byte) : option (list (option string)) :=
  if bytes_eqb bytes good_pdf then Some [Some "Drug X "; Some "label"]
  else None.

(** The two pages above have no markup: their text is the page itself. *)
Definition page_text (html : string) : option string :=
  if String.eqb html news_text then Some news_text
  else if String.eqb html "Not Found" then Some "Not Found"
  else None.

(** A JSON object whose only member is [source_url], with another URL. *)
Definition other_url_json : string :=
  "{" ++ DQ ++ "source_url" ++ DQ ++ ": " ++ DQ ++ url_other ++ DQ ++ "}".

Definition fenced_json : string :=
  "```json" ++ NL ++ "{}" ++ NL ++ "```".

Definition loads (t : string) : option pyval :=
  if String.eqb t "{}" then Some (PDict ∅)
  else if String.eqb t (NL ++ "{}" ++ NL) then Some (PDict ∅)
  else if String.eqb t other_url_json
  then Some (PDict (<["source_url" := PStr url_other]> ∅))
  else if String.eqb t "[]" then Some (PList [])
  else None.

(** A world in which the search returns [results] (or raises, for [None])
    and the model always behaves as [g]. *)
Definition world_of (results : option (option (list hit))) (g : generation)
  : world := {|
  serpapi_get_dict := fun _ _ => results;
  requests_get := get;
  fitz_open := pdf_pages;
  bs4_get_text := page_text;
  generate_content := fun _ _ => g;
  json_loads := loads;
  datetime_now_isoformat := fun _ => now;
  tempfile_name := fun _ => tmp_path
|}.

Definition world_raising : world := world_of (Some (Some hits)) GenRaises.
Definition world_empty_object : world :=
  world_of (Some (Some hits)) (GenResponse (Some "{}")).
Definition world_other_url : world :=
  world_of (Some (Some hits)) (GenResponse (Some other_url_json)).
Definition world_fenced : world :=
  world_of (Some (Some hits)) (GenResponse (Some fenced_json)).
Definition world_search_down : world := world_of None GenRaises.

(** The state in which the loop starts, after the search. *)
Definition searched (w : world) : state :=
  snd (search_drug_approvals w config "key" "fda.gov" "m" 10 init_state).

(** The prompt sent to the model for the page [url_news]. *)
Definition news_prompt : string :=
  build_prompt (PyStr.slice_to 4000 news_text) url_news.

End Demo.

(** ** Further observations *)

(** The characters of a string, first to last. *)
Definition chars (s : string) : list ascii := list_ascii_of_string s.

(** The characters that [strip_fences] removes at both ends: the back
    quote and the letters of [json]. *)
Definition fence_char (c : ascii) : bool := PyStr.mem c "```json".

Definition backquote (c : ascii) : bool := PyStr.mem c "```".

(** A string of white space only. *)
Definition blank (s : string) : Prop :=
  Forall (fun c => PyStr.isspace c = true) (chars s).

(** The parts that [normalize_lines] joins: the stripped lines that are
    not empty. *)
Definition parts_of (raw : string) : list string :=
  List.filter (fun l => negb (PyStr.is_empty l))
              (List.map PyStr.strip (PyStr.splitlines raw)).

(** The URLs requested by a sequence of actions, in order. *)
Definition fetched_urls (evs : list event) : list string :=
  omap (fun ev => match ev with EvGet url _ => Some url | _ => None end) evs.

(** The prompts sent to the model by a sequence of actions, in order. *)
Definition prompts_sent (evs : list event) : list string :=
  omap (fun ev => match ev with EvGenerate p => Some p | _ => None end) evs.

(** The searches made by a sequence of actions, in order. *)
Definition searches_made (evs : list event) : list search_params :=
  omap (fun ev => match ev with EvSearch p => Some p | _ => None end) evs.

(** The keys that every record of a result list carries. *)
Definition provenance_keys : list string :=
  [ "extraction_timestamp"; "search_title"; "search_snippet";
    "search_position" ].

(** The agency domains that have a query of their own. *)
Definition known_agencies : list string :=
  [ "fda.gov"; "ema.europa.eu"; "cdsco.gov.in" ].

(** The fetch of [url] in state [s] reaches the PDF branch and the PDF
    parser fails there. *)
Definition pdf_parse_fails (w : world) (cfg : Config) (s : state)
    (url : string) : Prop :=
  exists resp,
    requests_get w (tick s) url (request_timeout cfg) = Some resp /\
    ~ (400 <= status_code resp < 600) /\
    declares_pdf resp = true /\
    pdf_text w (content resp) = None.

(** ** Start-up and entry point

    The module-level code of the script: installation of the
    dependencies, API keys, and the [__main__] block with
    [save_results].  The machine the script starts on is a [host]; its
    state wraps the state of the pipeline. *)

(** How a call to the host ends: it returns, it raises the exception its
    caller handles ([ImportError] for [import_module],
    [CalledProcessError] for [check_call]), or it raises another one. *)
Inductive attempt :=
| Succeeds
| RaisesHandled
| RaisesOther.

(** The lines the script prints; the texts themselves are left out. *)
Inductive line :=
| CheckingDependencies
| AlreadyInstalled (package_name : string)
| Installing (package_name : string)
| InstalledSuccessfully (package_name : string)
| FailedToInstall (package_name : string)
| FailedList (failed : list string)
| InstallManually
| KeySetupFailed
| Starting
| SavedTo (path : string)
| NoResults.

(** The two prompts of [get_api_keys]. *)
Inductive key_prompt :=
| EnterGeminiKey
| EnterSerpApiKey.

(** What the script does on the host, in order. *)
Inductive action :=
| Print (l : line)
| ImportModule (import_name : string)
| PipInstall (package_name : string)
| LoadDotenv
| Getenv (var : string)
| Input (prompt : key_prompt)
| Configure (api_key : string)
| SetupLogging
| Mkdir (dir : string)
| ToCsv (path : string) (rows : list dict).

(** The exceptions of the start-up code. *)
Inductive error :=
| ImportFailure
| PipFailure
| InputFailure
| ConfigureFailure
| MkdirFailure
| CsvFailure
| PipelineFailure (e : exn).

(** How the script stops before its end: [sys.exit(code)], or an
    exception (a subclass of [Exception]) that nobody handles. *)
Inductive stop :=
| SystemExit (code : Z)
| Unhandled (e : error).

Record host := {
  (** [importlib.import_module(name)]. *)
  import_module : nat -> string -> attempt;
  (** [subprocess.check_call([sys.executable, "-m", "pip", "install", p])]. *)
  pip_install : nat -> string -> attempt;
  (** [os.getenv(var)], once [load_dotenv()] has run. *)
  os_getenv : string -> option string;
  (** [input(prompt)]; [None] when it raises (end of input). *)
  console_input : nat -> option string;
  (** [genai.configure(api_key=...)]; [false] when it raises. *)
  genai_configure : string -> bool;
  (** [datetime.now().strftime('%Y%m%d_%H%M%S')]. *)
  now_strftime : nat -> string;
  (** [str(Path(dir) / name)]. *)
  path_str : string -> string -> string;
  (** [Path(dir).mkdir(exist_ok=True)]; [false] when it raises. *)
  path_mkdir : nat -> string -> bool;
  (** [pd.DataFrame(rows).to_csv(path, index=False)]; [false] when it
      raises. *)
  to_csv : nat -> string -> list dict -> bool
}.

Record machine := {
  pipeline : state;
  host_tick : nat;
  actions : list action
}.

Inductive ending (A : Type) :=
| Done (a : A)
| Stopped (st : stop).
Arguments Done {A} a.
Arguments Stopped {A} st.

Definition P (A : Type) : Type := machine -> ending A * machine.

Definition done {A} (a : A) : P A := fun m => (Done a, m).

Definition halt {A} (st : stop) : P A := fun m => (Stopped st, m).

Definition and_then {A B} (p : P A) (k : A -> P B) : P B :=
  fun m =>
    match p m with
    | (Done a, m') => k a m'
    | (Stopped st, m') => (Stopped st, m')
    end.

Notation "'let$' x ':=' p 'in' k" := (and_then p (fun x => k))
  (at level 10, x name, p at level 100, k at level 200,
   format "'[v' 'let$'  x  ':='  p  'in' '/' k ']'").
Notation "'run$' p 'in' k" := (and_then p (fun _ => k))
  (at level 10, p at level 100, k at level 200,
   format "'[v' 'run$'  p  'in' '/' k ']'").

(** [try: body except Exception as e: handler]: [SystemExit] is no
    subclass of [Exception] and passes through. *)
Definition try_except_exception {A} (body : P A) (handler : error -> P A)
  : P A :=
  fun m =>
    match body m with
    | (Stopped (Unhandled e), m') => handler e m'
    | r => r
    end.

Definition act (a : action) : P unit :=
  fun m => (Done tt,
            {| pipeline := pipeline m; host_tick := host_tick m;
               actions := actions m ++ [a] |}).

Definition ask_host {A} (f : nat -> A) : P A :=
  fun m => (Done (f (host_tick m)),
            {| pipeline := pipeline m; host_tick := S (host_tick m);
               actions := actions m |}).

Definition print (l : line) : P unit := act (Print l).

(** [sys.exit(code)]. *)
Definition sys_exit {A} (code : Z) : P A := halt (SystemExit code).

(** A computation of the pipeline, run on the pipeline state of the
    machine. *)
Definition lift {A} (p : M A) : P (outcome A) :=
  fun m =>
    let '(r, s') := p (pipeline m) in
    (Done r, {| pipeline := s'; host_tick := host_tick m;
                actions := actions m |}).

(** [s.replace(old, new)] for one-character [old] and [new]. *)
Fixpoint replace_char (old new : ascii) (s : string) : string :=
  match s with
  | EmptyString => EmptyString
  | String c s' =>
      String (if Ascii.eqb c old then new else c) (replace_char old new s')
  end.

(** The truth value of an optional string: [None] and the empty string
    are false. *)
Definition truthy (v : option string) : bool :=
  match v with
  | Some (String _ _) => true
  | _ => false
  end.

(** The actions performed between the machine states [m] and [m']. *)
Definition new_actions (m m' : machine) : list action :=
  drop (List.length (actions m)) (actions m').

(** The modules imported, the packages handed to pip, the packages
    reported as failed, the prompts shown and the files written by a
    sequence of actions, in order. *)
Definition imports_of (acts : list action) : list string :=
  omap (fun a => match a with ImportModule n => Some n | _ => None end) acts.

Definition pips_of (acts : list action) : list string :=
  omap (fun a => match a with PipInstall p => Some p | _ => None end) acts.

Definition failures_of (acts : list action) : list string :=
  omap (fun a => match a with
                 | Print (FailedToInstall p) => Some p
                 | _ => None
                 end) acts.

Definition inputs_of (acts : list action) : list key_prompt :=
  omap (fun a => match a with Input p => Some p | _ => None end) acts.

Definition saves_of (acts : list action) : list (string * list dict) :=
  omap (fun a => match a with
                 | ToCsv path rows => Some (path, rows)
                 | _ => None
                 end) acts.

(** A computation that stays on the host: it leaves the state of the
    pipeline alone and never calls [sys.exit]. *)
Definition host_only {A} (p : P A) : Prop :=
  forall m,
    pipeline (snd (p m)) = pipeline m /\
    forall code, fst (p m) <> Stopped (SystemExit code).

Section Script.

Context (h : host).

(** An [import] statement of the module: an exception it raises is
    handled nowhere. *)
Definition import_statement (name : string) : P unit :=
  run$ act (ImportModule name) in
  let$ imported := ask_host (fun t => import_module h t name) in
  match imported with
  | Succeeds => done tt
  | _ => halt (Unhandled ImportFailure)
  end.

(** [install_package]. *)
Definition install_package (package_name : string)
    (import_name : option string) : P bool :=
  let import_name :=
    match import_name with
    | None => replace_char "-" "_" package_name
    | Some n => n
    end in
  run$ act (ImportModule import_name) in
  let$ imported := ask_host (fun t => import_module h t import_name) in
  match imported with
  | Succeeds =>
      run$ print (AlreadyInstalled package_name) in
      done true
  | RaisesHandled =>
      run$ print (Installing package_name) in
      run$ act (PipInstall package_name) in
      let$ installed := ask_host (fun t => pip_install h t package_name) in
      match installed with
      | Succeeds =>
          run$ print (InstalledSuccessfully package_name) in
          done true
      | RaisesHandled =>
          run$ print (FailedToInstall package_name) in
          done false
      | RaisesOther => halt (Unhandled PipFailure)
      end
  | RaisesOther => halt (Unhandled ImportFailure)
  end.

Definition required_packages : list (string * string) :=
  [ ("PyMuPDF", "fitz");
    ("requests", "requests");
    ("pandas", "pandas");
    ("google-generativeai", "google.generativeai");
    ("beautifulsoup4", "bs4");
    ("google-search-results", "serpapi");
    ("python-dotenv", "dotenv");
    ("ipywidgets", "ipywidgets") ].

(** [for pkg, imp in packages: if not install_package(pkg, imp):
    failed.append(pkg)]. *)
Fixpoint install_each (packages : list (string * string)) (failed : list string)
  : P (list string) :=
  match packages with
  | [] => done failed
  | (pkg, imp) :: rest =>
      let$ ok := install_package pkg (Some imp) in
      install_each rest (if ok then failed else failed ++ [pkg])
  end.

(** [setup_dependencies]. *)
Definition setup_dependencies : P bool :=
  run$ print CheckingDependencies in
  let$ failed := install_each required_packages [] in
  match failed with
  | [] => done true
  | _ :: _ =>
      run$ print (FailedList failed) in
      run$ print InstallManually in
      done false
  end.

(** [input(prompt).strip()]. *)
Definition input_stripped (prompt : key_prompt) : P string :=
  run$ act (Input prompt) in
  let$ answer := ask_host (console_input h) in
  match answer with
  | None => halt (Unhandled InputFailure)
  | Some t => done (PyStr.strip t)
  end.

Definition getenv (var : string) : P (option string) :=
  run$ act (Getenv var) in
  done (os_getenv h var).

(** [get_api_keys]. *)
Definition get_api_keys : P (string * string) :=
  let$ gemini_key := getenv "GEMINI_API_KEY" in
  let$ serpapi_key := getenv "SERPAPI_API_KEY" in
  let$ gemini_key :=
    if truthy gemini_key then done (get_or_empty gemini_key)
    else input_stripped EnterGeminiKey in
  let$ serpapi_key :=
    if truthy serpapi_key then done (get_or_empty serpapi_key)
    else input_stripped EnterSerpApiKey in
  done (gemini_key, serpapi_key).

(** [genai.configure(api_key=gemini_api_key)]. *)
Definition configure (gemini_api_key : string) : P unit :=
  run$ act (Configure gemini_api_key) in
  if genai_configure h gemini_api_key then done tt
  else halt (Unhandled ConfigureFailure).

(** [DrugApprovalTracker.save_results]. *)
Definition save_results (results : list dict) (filename : option string)
  : P string :=
  let$ filename :=
    if truthy filename then done (get_or_empty filename)
    else
      let$ stamp := ask_host (now_strftime h) in
      done ("drug_approvals_" ++ stamp ++ ".csv") in
  run$ act (Mkdir "outputs") in
  let$ made := ask_host (fun t => path_mkdir h t "outputs") in
  if negb made then halt (Unhandled MkdirFailure)
  else
    let path := path_str h "outputs" filename in
    run$ act (ToCsv path results) in
    let$ written := ask_host (fun t => to_csv h t path results) in
    if negb written then halt (Unhandled CsvFailure)
    else
      run$ print (SavedTo path) in
      done path.

Context (w : world).

(** The [__main__] block; the tracker is built on the global [config] and
    called with the defaults of [track_approvals]. *)
Definition main (serpapi_api_key : string) : P unit :=
  run$ print Starting in
  let$ run := lift (track_approvals w config serpapi_api_key "fda.gov" "m" 10) in
  match run with
  | Raised e => halt (Unhandled (PipelineFailure e))
  | Returned [] => print NoResults
  | Returned (r :: rest) =>
      run$ save_results (r :: rest) None in
      done tt
  end.

(** The script, from its first statement to its last.  The imports of
    the standard library at the top of the file are left out; those of
    [requests] and [pandas] stand before the call of
    [setup_dependencies], the five others after it. *)
Definition script : P unit :=
  run$ import_statement "requests" in
  run$ import_statement "pandas" in
  let$ ok := setup_dependencies in
  if negb ok then sys_exit 1
  else
    run$ import_statement "fitz" in
    run$ import_statement "google.generativeai" in
    run$ import_statement "bs4" in
    run$ import_statement "serpapi" in
    run$ import_statement "dotenv" in
    run$ act LoadDotenv in
    let$ keys :=
      try_except_exception
        (let$ keys := get_api_keys in
         run$ configure (fst keys) in
         done keys)
        (fun _ =>
           run$ print KeySetupFailed in
           sys_exit 1) in
    run$ act SetupLogging in
    main (snd keys).

End Script.

(** ** Concrete hosts *)

Module DemoHost.

Definition init_machine : machine :=
  {| pipeline := init_state; host_tick := 0; actions := [] |}.

(** An environment with both keys, and one with none. *)
Definition env_full (var : string) : option string :=
  if String.eqb var "GEMINI_API_KEY" then Some " g-key"
  else if String.eqb var "SERPAPI_API_KEY" then Some "s-key"
  else None.

Definition env_empty (_ : string) : option string := None.

(** A host on which the modules of [missing] cannot be imported, pip
    works or fails for every package, the environment is [env] and every
    prompt is answered with [typed]. *)
Definition host_of (missing : list string) (pip_works : bool)
    (env : string -> option string) (typed : option string) : host := {|
  import_module := fun _ n =>
    if existsb (String.eqb n) missing then RaisesHandled else Succeeds;
  pip_install := fun _ _ => if pip_works then Succeeds else RaisesHandled;
  os_getenv := env;
  console_input := fun _ => typed;
  genai_configure := fun _ => true;
  now_strftime := fun _ => "20250601_120000";
  path_str := fun dir name => dir ++ "/" ++ name;
  path_mkdir := fun _ _ => true;
  to_csv := fun _ _ _ => true
|}.

Definition host_ready : host := host_of [] true env_full None.
Definition host_fitz_missing : host := host_of ["fitz"] false env_full None.
Definition host_no_requests : host := host_of ["requests"] true env_full None.
Definition host_asking : host :=
  host_of [] true env_empty (Some "  typed-key  ").

(** A text of 4000 characters, and the same text with more after it. *)
Fixpoint copies (n : nat) (c : ascii) : string :=
  match n with
  | O => EmptyString
  | S n' => String c (copies n' c)
  end.

Definition long_text : string := copies 4000 "a".
Definition longer_text : string := long_text ++ " and more".

End DemoHost.

(** ** The media type of a content-type header

    The spec speaks of a declared content type that indicates PDF.  Read
    on its own, that is a statement about the media type of the header:
    the text before the first semicolon, without the white space around
    it and without regard to case, is [application/pdf].  The definitions
    below follow these words, not the code; the code's own test is
    [declares_pdf]. *)

Fixpoint before_semicolon (s : string) : string :=
  match s with
  | EmptyString => EmptyString
  | String c s' =>
      if Ascii.eqb c ";" then EmptyString else String c (before_semicolon s')
  end.

Definition lower_char (c : ascii) : ascii :=
  let n := N_of_ascii c in
  if ((65 <=? n) && (n <=? 90))%N then ascii_of_N (n + 32) else c.

Fixpoint lower (s : string) : string :=
  match s with
  | EmptyString => EmptyString
  | String c s' => String (lower_char c) (lower s')
  end.

Definition media_type (header : string) : string :=
  lower (PyStr.strip (before_semicolon header)).

Definition media_type_is_pdf (header : option string) : bool :=
  match header with
  | Some ct => String.eqb (media_type ct) "application/pdf"
  | None => false
  end.

(** The query of [search_drug_approvals] for an agency domain that is
    none of the known ones. *)
Definition generic_query : string :=
  "drug approval " ++ DQ ++ "approved" ++ DQ ++ " FDA OR EMA OR CDSCO".

Module DemoHeader.
Import Demo.

(** An HTML page served with the parameter [name=pdf], and a PDF served
    with its media type in capitals. *)
Definition url_named : string := "https://www.fda.gov/named".
Definition url_capitals : string := "https://www.fda.gov/capitals".

Definition get_headers (_ : nat) (url : string) (_ : Z) : option response :=
  if String.eqb url url_named then
    Some {| status_code := 200; content_type := Some "text/html; name=pdf";
            content := []; text := news_text |}
  else
    Some {| status_code := 200; content_type := Some "application/PDF";
            content := good_pdf; text := news_text |}.

Definition world_headers : world := {|
  serpapi_get_dict := fun _ _ => Some (Some []);
  requests_get := get_headers;
  fitz_open := pdf_pages;
  bs4_get_text := page_text;
  generate_content := fun _ _ => GenRaises;
  json_loads := loads;
  datetime_now_isoformat := fun _ => now;
  tempfile_name := fun _ => tmp_path
|}.

End DemoHeader.

(** * Properties *)

(** ** Facts about the string operations *)

Module PyStrFacts.
Import PyStr.

Lemma take_nonpos n s : n <= 0 -> take n s = EmptyString.
Proof.
  intros Hn. destruct s as [|c s]; simpl; [reflexivity|].
  destruct (Z.leb_spec n 0); [reflexivity | lia].
Qed.

Lemma len_take n s : 0 <= n -> len (take n s) = Z.min n (len s).
Proof.
  unfold len. revert n. induction s as [|c s IH]; intros n Hn; simpl.
  - lia.
  - destruct (Z.leb_spec n 0) as [H0|Hpos]; simpl.
    + lia.
    + specialize (IH (n - 1)). lia.
Qed.

Lemma len_nonneg s : 0 <= len s.
Proof. unfold len. lia. Qed.

(** A slice [s[:n]] with [n >= 0] has [min n (len s)] characters. *)
Lemma len_slice_to n s : 0 <= n -> len (slice_to n s) = Z.min n (len s).
Proof.
  intros Hn. unfold slice_to.
  destruct (Z.leb_spec 0 n); [|lia]. now apply len_take.
Qed.

Lemma len_slice_to_le n s : 0 <= n -> len (slice_to n s) <= n.
Proof. intros Hn. rewrite len_slice_to by assumption. lia. Qed.

Lemma take_all n s : len s <= n -> take n s = s.
Proof.
  unfold len. revert n. induction s as [|c s IH]; intros n Hn; simpl in *.
  - reflexivity.
  - destruct (Z.leb_spec n 0); [lia|]. f_equal. apply IH. lia.
Qed.

(** The slice is a prefix of the string: nothing is reordered or added. *)
Lemma take_is_prefix n s : exists rest, s = take n s ++ rest.
Proof.
  revert n. induction s as [|c s IH]; intros n; simpl.
  - now exists EmptyString.
  - destruct (n <=? 0).
    + now exists (String c s).
    + destruct (IH (n - 1)) as [rest Hrest]. exists rest.
      change (String c s = String c (take (n - 1) s ++ rest)). congruence.
Qed.

Lemma is_prefix_spec p s :
  is_prefix p s = true <-> exists post, s = p ++ post.
Proof.
  revert s. induction p as [|a p IH]; intros s; simpl.
  - split; [intros _; now exists s | reflexivity].
  - destruct s as [|b s].
    + split; [discriminate | intros [post H]; discriminate].
    + destruct (Ascii.eqb_spec a b) as [->|Hne].
      * rewrite IH. split; intros [post H]; exists post.
        -- simpl. now rewrite H.
        -- simpl in H. now inversion H.
      * split; [discriminate|]. intros [post H]. simpl in H.
        inversion H. congruence.
Qed.

(** [sub in s] holds exactly when [sub] occurs in [s]. *)
Lemma contains_spec sub s :
  contains sub s = true <-> exists pre post, s = pre ++ sub ++ post.
Proof.
  induction s as [|c s IH].
  - simpl. rewrite orb_false_r, is_prefix_spec. split.
    + intros [post H]. now exists EmptyString, post.
    + intros [pre [post H]]. destruct pre; simpl in H.
      * now exists post.
      * discriminate.
  - cbn [contains]. rewrite orb_true_iff, is_prefix_spec, IH. split.
    + intros [[post H] | [pre [post H]]].
      * now exists EmptyString, post.
      * exists (String c pre), post. simpl. now rewrite H.
    + intros [pre [post H]]. destruct pre as [|d pre]; simpl in H.
      * left. now exists post.
      * right. inversion H. now exists pre, post.
Qed.

Lemma is_empty_spec s : is_empty s = true <-> s = EmptyString.
Proof. destruct s; simpl; split; congruence. Qed.

End PyStrFacts.

(** ** Running the monad *)

Lemma emit_run ev s : emit ev s = (Returned tt, logged s [ev]).
Proof. reflexivity. Qed.

Lemma ask_run {A} (f : nat -> A) s : ask f s = (Returned (f (tick s)), ticked s).
Proof. reflexivity. Qed.

(** Unfolds the combinators of the monad in the goal. *)
Ltac run_monad :=
  unfold bind, try_except, ret, raise, logger_error, logger_info, time_sleep,
    get_files, set_files, emit, ask; simpl.

(** Two states are equal when their three components are. *)
Ltac state_eq :=
  unfold logged, ticked, with_files; simpl;
  repeat rewrite <- app_assoc; simpl; try reflexivity.

Section Components.

Context (w : world) (cfg : Config).

(** *** The HTML branch *)

Lemma html_content_run html s :
  _extract_html_content w cfg html s =
  match bs4_get_text w html with
  | Some raw =>
      (Returned (PyStr.slice_to (max_text_length cfg) (normalize_lines raw)),
       logged s [EvHtmlParse])
  | None =>
      (Returned EmptyString,
       logged s [EvHtmlParse; EvLogError "HTML parse failed: " HtmlError])
  end.
Proof.
  unfold _extract_html_content, soup_get_text. run_monad.
  destruct (bs4_get_text w html); run_monad; f_equal; state_eq.
Qed.

(** *** The PDF branch *)

Lemma read_pages_run pages acc s :
  read_pages pages acc s =
  match pages_text pages acc with
  | Some t => (Returned t, s)
  | None => (Raised PdfError, s)
  end.
Proof.
  revert acc. induction pages as [|[t|] rest IH]; intros acc; simpl.
  - reflexivity.
  - apply IH.
  - reflexivity.
Qed.

Lemma pdf_content_run bytes s :
  _extract_pdf_content w cfg bytes s =
  let p := tempfile_name w (tick s) in
  let written := <[p := bytes]> (files s) in
  match pdf_text w bytes with
  | Some t =>
      (Returned (PyStr.slice_to (max_text_length cfg) t),
       logged (with_files (ticked s) (delete p written))
              [EvTmpCreate p; EvPdfOpen p; EvUnlink p])
  | None =>
      (Returned EmptyString,
       logged (with_files (ticked s) written)
              [EvTmpCreate p; EvPdfOpen p;
               EvLogError "PDF parse failed: " PdfError])
  end.
Proof.
  unfold _extract_pdf_content, named_temporary_file, fitz_read, os_unlink,
    pdf_text.
  run_monad. rewrite lookup_insert_eq. simpl.
  destruct (fitz_open w bytes) as [pages|]; simpl.
  - rewrite read_pages_run.
    destruct (pages_text pages EmptyString) as [t|]; simpl.
    + rewrite lookup_insert_eq. simpl. f_equal. state_eq.
    + f_equal. state_eq.
  - f_equal. state_eq.
Qed.

End Components.

Section Pipeline.

Context (w : world) (cfg : Config).

(** *** The Content Extractor *)

Lemma raise_for_status_run resp s :
  raise_for_status resp s =
  if (400 <=? status_code resp) && (status_code resp <? 600)
  then (Raised (HTTPError (status_code resp)), s)
  else (Returned tt, s).
Proof.
  unfold raise_for_status.
  now destruct ((400 <=? status_code resp) && (status_code resp <? 600)).
Qed.

Lemma pdf_content_returns bytes s :
  exists t s', _extract_pdf_content w cfg bytes s = (Returned t, s').
Proof.
  rewrite pdf_content_run. simpl. destruct (pdf_text w bytes); eauto.
Qed.

Lemma html_content_returns html s :
  exists t s', _extract_html_content w cfg html s = (Returned t, s').
Proof.
  rewrite html_content_run. destruct (bs4_get_text w html); eauto.
Qed.

Lemma extract_content_run url s :
  extract_content w cfg url s =
  let failed e :=
    (Returned EmptyString,
     logged (after_get cfg s url)
       [EvLogError ("Content extraction failed for " ++ url ++ ": ") e]) in
  match requests_get w (tick s) url (request_timeout cfg) with
  | None => failed RequestException
  | Some resp =>
      if (400 <=? status_code resp) && (status_code resp <? 600)
      then failed (HTTPError (status_code resp))
      else if declares_pdf resp
           then _extract_pdf_content w cfg (content resp) (after_get cfg s url)
           else _extract_html_content w cfg (text resp) (after_get cfg s url)
  end.
Proof.
  unfold extract_content, http_get, try_except, bind at 1 2.
  rewrite emit_run. unfold bind at 1. rewrite ask_run. simpl.
  fold (after_get cfg s url).
  destruct (requests_get w (tick s) url (request_timeout cfg)) as [resp|].
  - unfold ret at 1. unfold bind at 1. rewrite raise_for_status_run.
    destruct ((400 <=? status_code resp) && (status_code resp <? 600)).
    + reflexivity.
    + destruct (declares_pdf resp).
      * destruct (pdf_content_returns (content resp) (after_get cfg s url))
          as (t & s' & ->). reflexivity.
      * destruct (html_content_returns (text resp) (after_get cfg s url))
          as (t & s' & ->). reflexivity.
  - reflexivity.
Qed.

Lemma extract_content_returns url s :
  exists t s', extract_content w cfg url s = (Returned t, s').
Proof.
  rewrite extract_content_run. simpl.
  destruct (requests_get w (tick s) url (request_timeout cfg)) as [resp|];
    [|eauto].
  destruct ((400 <=? status_code resp) && (status_code resp <? 600)); [eauto|].
  destruct (declares_pdf resp);
    [apply pdf_content_returns | apply html_content_returns].
Qed.

(** *** The Structured Extractor *)

Lemma setitem_run v k x s :
  setitem v k x s =
  match as_object v with
  | Some d => (Returned (<[k := x]> d), s)
  | None => (Raised TypeError, s)
  end.
Proof. now destruct v. Qed.

Lemma analyze_content_run content url s :
  analyze_content w cfg content url s =
  let prompt := build_prompt (PyStr.slice_to 4000 content) url in
  match generate_content w (tick s) prompt with
  | GenRaises =>
      failed_analysis w url (after_generate s prompt) GenerationError
  | GenResponse None =>
      failed_analysis w url (after_pause cfg s prompt) ResponseTextError
  | GenResponse (Some raw) =>
      match json_loads w (strip_fences raw) with
      | None => failed_analysis w url (after_pause cfg s prompt) JSONDecodeError
      | Some v =>
          match as_object v with
          | Some d =>
              (Returned
                 (<["extraction_timestamp" :=
                      PStr (datetime_now_isoformat w
                              (tick (after_pause cfg s prompt)))]> d),
               ticked (after_pause cfg s prompt))
          | None => failed_analysis w url (ticked (after_pause cfg s prompt)) TypeError
          end
      end
  end.
Proof.
  unfold analyze_content, model_generate_content, response_text,
    json_loads_text, failed_analysis, after_pause, after_generate.
  run_monad.
  destruct (generate_content w (tick s) _) as [|[raw|]]; simpl.
  - f_equal; state_eq.
  - destruct (json_loads w (strip_fences raw)) as [v|]; simpl.
    + rewrite setitem_run. destruct (as_object v); simpl; f_equal; state_eq.
    + f_equal; state_eq.
  - f_equal; state_eq.
Qed.

Lemma analyze_content_returns content url s :
  exists d s', analyze_content w cfg content url s = (Returned d, s').
Proof.
  rewrite analyze_content_run. simpl. unfold failed_analysis.
  destruct (generate_content w (tick s) _) as [|[raw|]]; eauto.
  destruct (json_loads w (strip_fences raw)) as [v|]; eauto.
  destruct (as_object v); eauto.
Qed.

End Pipeline.

(** ** The fallback record *)

Lemma fallback_record_fields url now :
  fallback_record url now !! "confidence_score" = Some (PFloat (PyFloat 0 0)) /\
  fallback_record url now !! "drug_name" = Some (PStr "Analysis failed") /\
  Forall (fun k => fallback_record url now !! k = Some (PStr "Not specified"))
         sentinel_keys /\
  fallback_record url now !! "source_url" = Some (PStr url) /\
  fallback_record url now !! "extraction_timestamp" = Some (PStr now).
Proof.
  repeat split; try reflexivity.
  unfold sentinel_keys. repeat constructor.
Qed.

Lemma fallback_record_has_all_keys url now :
  has_all_keys (fallback_record url now) = true.
Proof. reflexivity. Qed.

Lemma has_key_insert (d : dict) k k' v :
  has_key (<[k := v]> d) k' = (String.eqb k' k || has_key d k').
Proof.
  unfold has_key. rewrite lookup_insert.
  destruct (String.eqb_spec k' k) as [->|Hne].
  - now rewrite decide_True.
  - rewrite decide_False by congruence. reflexivity.
Qed.

Lemma new_events_app s s' evs :
  trace s' = (trace s ++ evs)%list -> new_events s s' = evs.
Proof. intros H. unfold new_events. rewrite H. apply drop_app_length. Qed.

Lemma declares_pdf_spec resp :
  declares_pdf resp = true <-> mentions_pdf (content_type resp).
Proof.
  unfold declares_pdf, mentions_pdf. rewrite PyStrFacts.contains_spec.
  destruct (content_type resp) as [ct|]; simpl; split.
  - intros (pre & post & H). now exists ct, pre, post.
  - intros (ct' & pre & post & Hct & H). injection Hct as <-. now exists pre, post.
  - intros (pre & post & H). destruct pre; discriminate.
  - intros (ct' & pre & post & Hct & H). discriminate.
Qed.

Section ComponentClaims.

Context (w : world) (cfg : Config).

(** C4 (amended): for every URL, [extract_content] returns (it never
    raises to its caller), and it returns the empty string whenever the
    fetch fails: the request raises (network error, timeout), the response
    has a 4xx or 5xx status, the PDF cannot be parsed, or the HTML cannot
    be parsed. *)
Theorem extract_content_never_raises url s :
  (exists t s', extract_content w cfg url s = (Returned t, s')) /\
  (fetch_failure w cfg s url ->
   fst (extract_content w cfg url s) = Returned EmptyString).
Proof.
  split; [apply extract_content_returns|].
  intros Hfail. rewrite extract_content_run. simpl.
  destruct Hfail as [Hget | resp Hget Hst | resp Hget Hpdf Hparse
                    | resp Hget Hpdf Hparse]; rewrite Hget.
  - reflexivity.
  - destruct (Z.leb_spec 400 (status_code resp)); [|lia].
    destruct (Z.ltb_spec (status_code resp) 600); [|lia]. reflexivity.
  - destruct ((400 <=? status_code resp) && (status_code resp <? 600));
      [reflexivity|].
    rewrite Hpdf, pdf_content_run. simpl. now rewrite Hparse.
  - destruct ((400 <=? status_code resp) && (status_code resp <? 600));
      [reflexivity|].
    rewrite Hpdf, html_content_run. now rewrite Hparse.
Qed.

(** C5: when the configured [max_text_length] is not negative (it is 8000
    in the program), the text returned by the PDF branch, by the HTML
    branch and by [extract_content] itself has at most [max_text_length]
    characters, whatever the response body is; a parsed text longer than
    the cap is cut to its first [max_text_length] characters and returned,
    no error is raised. *)
Theorem extracted_text_within_cap (Hcap : 0 <= max_text_length cfg) s :
  (forall bytes, exists t s',
      _extract_pdf_content w cfg bytes s = (Returned t, s') /\
      PyStr.len t <= max_text_length cfg /\
      forall full, pdf_text w bytes = Some full ->
        t = PyStr.take (max_text_length cfg) full /\
        PyStr.len t = Z.min (max_text_length cfg) (PyStr.len full)) /\
  (forall html, exists t s',
      _extract_html_content w cfg html s = (Returned t, s') /\
      PyStr.len t <= max_text_length cfg /\
      forall raw, bs4_get_text w html = Some raw ->
        t = PyStr.take (max_text_length cfg) (normalize_lines raw) /\
        PyStr.len t = Z.min (max_text_length cfg)
                            (PyStr.len (normalize_lines raw))) /\
  (forall url, exists t s',
      extract_content w cfg url s = (Returned t, s') /\
      PyStr.len t <= max_text_length cfg).
Proof.
  assert (Hslice : forall full,
             PyStr.slice_to (max_text_length cfg) full =
             PyStr.take (max_text_length cfg) full).
  { intros full. unfold PyStr.slice_to.
    destruct (Z.leb_spec 0 (max_text_length cfg)); [reflexivity | lia]. }
  assert (Hpdf : forall s0 bytes, exists t s',
      _extract_pdf_content w cfg bytes s0 = (Returned t, s') /\
      PyStr.len t <= max_text_length cfg /\
      forall full, pdf_text w bytes = Some full ->
        t = PyStr.take (max_text_length cfg) full /\
        PyStr.len t = Z.min (max_text_length cfg) (PyStr.len full)).
  { intros s0 bytes. rewrite pdf_content_run. simpl.
    destruct (pdf_text w bytes) as [full|]; eexists; eexists;
      (split; [reflexivity|]).
    - split; [now apply PyStrFacts.len_slice_to_le|].
      intros full' [= <-]. split; [apply Hslice|].
      now apply PyStrFacts.len_slice_to.
    - split; [exact Hcap | discriminate]. }
  assert (Hhtml : forall s0 html, exists t s',
      _extract_html_content w cfg html s0 = (Returned t, s') /\
      PyStr.len t <= max_text_length cfg /\
      forall raw, bs4_get_text w html = Some raw ->
        t = PyStr.take (max_text_length cfg) (normalize_lines raw) /\
        PyStr.len t = Z.min (max_text_length cfg)
                            (PyStr.len (normalize_lines raw))).
  { intros s0 html. rewrite html_content_run.
    destruct (bs4_get_text w html) as [raw|]; eexists; eexists;
      (split; [reflexivity|]).
    - split; [now apply PyStrFacts.len_slice_to_le|].
      intros raw' [= <-]. split; [apply Hslice|].
      now apply PyStrFacts.len_slice_to.
    - split; [exact Hcap | discriminate]. }
  split; [apply Hpdf | split; [apply Hhtml|]].
  intros url. rewrite extract_content_run. simpl.
  destruct (requests_get w (tick s) url (request_timeout cfg)) as [resp|].
  - destruct ((400 <=? status_code resp) && (status_code resp <? 600)).
    + eexists; eexists; split; [reflexivity | exact Hcap].
    + destruct (declares_pdf resp).
      * destruct (Hpdf (after_get cfg s url) (content resp))
          as (t & s' & Hrun & Hlen & _). eauto.
      * destruct (Hhtml (after_get cfg s url) (text resp))
          as (t & s' & Hrun & Hlen & _). eauto.
  - eexists; eexists; split; [reflexivity | exact Hcap].
Qed.

(** C9 (amended): for a response that passes the status check, the PDF
    branch is taken exactly when the text [pdf], in lower case, occurs
    somewhere in the value of the [content-type] header, be it in the
    media type or in a parameter; the HTML branch is taken otherwise, in
    particular when the header is absent; the two branches exclude each
    other. *)
Theorem dispatch_on_declared_content_type url s resp :
  requests_get w (tick s) url (request_timeout cfg) = Some resp ->
  ~ (400 <= status_code resp < 600) ->
  let s' := snd (extract_content w cfg url s) in
  (mentions_pdf (content_type resp) ->
     extract_content w cfg url s =
     _extract_pdf_content w cfg (content resp) (after_get cfg s url)) /\
  (~ mentions_pdf (content_type resp) ->
     extract_content w cfg url s =
     _extract_html_content w cfg (text resp) (after_get cfg s url)) /\
  (existsb is_pdf_event (new_events s s') = true <->
     mentions_pdf (content_type resp)) /\
  (existsb is_html_event (new_events s s') = true <->
     ~ mentions_pdf (content_type resp)) /\
  (content_type resp = None -> existsb is_html_event (new_events s s') = true).
Proof.
  intros Hget Hst s'. subst s'.
  rewrite extract_content_run. simpl. rewrite Hget.
  assert (Hok : (400 <=? status_code resp) && (status_code resp <? 600) = false).
  { apply andb_false_iff.
    destruct (Z.leb_spec 400 (status_code resp)); [|now left].
    destruct (Z.ltb_spec (status_code resp) 600); [lia | now right]. }
  rewrite Hok. pose proof (declares_pdf_spec resp) as Hspec.
  assert (Hnone : content_type resp = None -> declares_pdf resp = false).
  { intros H. unfold declares_pdf. now rewrite H. }
  destruct (declares_pdf resp) eqn:Hpdf.
  - assert (Hind : mentions_pdf (content_type resp)) by now apply Hspec.
    rewrite pdf_content_run. simpl.
    destruct (pdf_text w (content resp));
      (erewrite new_events_app by (simpl; rewrite <- app_assoc; reflexivity));
      simpl; repeat split; try tauto; try discriminate;
      intros H; specialize (Hnone H); discriminate.
  - assert (Hind : ~ mentions_pdf (content_type resp)).
    { intros H. apply Hspec in H. discriminate. }
    rewrite html_content_run.
    destruct (bs4_get_text w (text resp));
      (erewrite new_events_app by (simpl; rewrite <- app_assoc; reflexivity));
      simpl; repeat split; try tauto; try discriminate.
Qed.

End ComponentClaims.

Section ExtractorClaims.

Context (w : world) (cfg : Config).

Lemma extraction_fails_no_object s prompt :
  extraction_fails w s prompt <-> model_object w s prompt = None.
Proof.
  unfold extraction_fails, model_object.
  destruct (generate_content w (tick s) prompt) as [|[raw|]]; try tauto.
  destruct (json_loads w (strip_fences raw)); tauto.
Qed.

(** The record of [analyze_content]: the object of the model with the
    time stamp added, or the fallback record. *)
Lemma analyze_content_record content url s :
  exists now s',
    analyze_content w cfg content url s =
    (Returned
       match model_object w s (build_prompt (PyStr.slice_to 4000 content) url) with
       | Some d => <["extraction_timestamp" := PStr now]> d
       | None => fallback_record url now
       end, s').
Proof.
  rewrite analyze_content_run. unfold model_object, failed_analysis. simpl.
  destruct (generate_content w (tick s) _) as [|[raw|]]; eauto.
  destruct (json_loads w (strip_fences raw)) as [v|]; eauto.
  destruct (as_object v); eauto.
Qed.

(** C2 (amended): when the generative collaborator raises, or returns no
    text, or returns text that after the removal of the code fences does
    not parse as a JSON object, the record of [analyze_content] has
    [confidence_score] 0.0, [drug_name] equal to ["Analysis failed"], the
    eight other descriptive fields equal to ["Not specified"],
    [source_url] equal to the original URL and a time stamp. *)
Theorem fallback_on_failed_extraction content url s :
  extraction_fails w s (build_prompt (PyStr.slice_to 4000 content) url) ->
  exists r now s',
    analyze_content w cfg content url s = (Returned r, s') /\
    r !! "confidence_score" = Some (PFloat (PyFloat 0 0)) /\
    r !! "drug_name" = Some (PStr "Analysis failed") /\
    Forall (fun k => r !! k = Some (PStr "Not specified")) sentinel_keys /\
    r !! "source_url" = Some (PStr url) /\
    r !! "extraction_timestamp" = Some (PStr now).
Proof.
  intros Hfail. apply extraction_fails_no_object in Hfail.
  destruct (analyze_content_record content url s) as (now & s' & Hrun).
  rewrite Hfail in Hrun.
  exists (fallback_record url now), now, s'.
  split; [exact Hrun | apply fallback_record_fields].
Qed.

(** The [source_url] of a record: the original URL on the fallback path,
    whatever the object of the model holds under that key otherwise. *)
Lemma analyze_content_source_url content url s :
  exists r s',
    analyze_content w cfg content url s = (Returned r, s') /\
    r !! "source_url" =
    match model_object w s (build_prompt (PyStr.slice_to 4000 content) url) with
    | Some d => d !! "source_url"
    | None => Some (PStr url)
    end.
Proof.
  destruct (analyze_content_record content url s) as (now & s' & Hrun).
  eexists; eexists; split; [exact Hrun|].
  destruct (model_object w s _) as [d|]; [|reflexivity].
  now apply lookup_insert_ne.
Qed.

(** The keys of a record, as the code computes them: the time stamp is
    always there; the fallback record has the twelve keys of the schema;
    on the success path the other keys are those of the object of the
    model, none is added. *)
Lemma record_keys content url s :
  exists r s',
    analyze_content w cfg content url s = (Returned r, s') /\
    has_key r "extraction_timestamp" = true /\
    match model_object w s (build_prompt (PyStr.slice_to 4000 content) url) with
    | Some d =>
        forall k, has_key r k = (String.eqb k "extraction_timestamp" || has_key d k)
    | None => has_all_keys r = true
    end.
Proof.
  destruct (analyze_content_record content url s) as (now & s' & Hrun).
  eexists; eexists; split; [exact Hrun|].
  destruct (model_object w s _) as [d|].
  - split; [now rewrite has_key_insert|]. intros k. apply has_key_insert.
  - split; reflexivity.
Qed.

(** The temporary file after the PDF branch: removed when the document
    was parsed, still on disk when parsing failed. *)
Lemma temporary_file_after_pdf_parse bytes s :
  files (snd (_extract_pdf_content w cfg bytes s)) !! tempfile_name w (tick s) =
  match pdf_text w bytes with
  | Some _ => None
  | None => Some bytes
  end.
Proof.
  rewrite pdf_content_run. simpl.
  destruct (pdf_text w bytes); simpl.
  - apply lookup_delete_eq.
  - apply lookup_insert_eq.
Qed.

(** Where the pacing delay stands among the actions, as the code runs:
    right after a search call or a generative call that returns, and
    nowhere when the call raises. *)
Lemma pause_follows_returned_calls :
  (forall key agency range n s,
     let query := build_query agency in
     let params := build_params query key range n in
     let s' := snd (search_drug_approvals w cfg key agency range n s) in
     match serpapi_get_dict w (tick s) params with
     | Some _ =>
         new_events s s' =
         [EvLogInfo ("Searching: " ++ query); EvSearch params;
          EvSleep (serpapi_delay cfg)]
     | None =>
         new_events s s' =
         [EvLogInfo ("Searching: " ++ query); EvSearch params;
          EvLogError "Search failed: " SearchError]
     end) /\
  (forall content url s,
     let prompt := build_prompt (PyStr.slice_to 4000 content) url in
     let s' := snd (analyze_content w cfg content url s) in
     match generate_content w (tick s) prompt with
     | GenResponse _ =>
         exists rest,
           new_events s s' =
           EvGenerate prompt :: EvSleep (gemini_delay cfg) :: rest /\
           existsb is_sleep rest = false
     | GenRaises =>
         new_events s s' =
         [EvGenerate prompt;
          EvLogError "AI analysis failed: " GenerationError]
     end).
Proof.
  split.
  - intros key agency range n s query params s'. subst s'.
    unfold search_drug_approvals, google_search_get_dict.
    fold query. fold params. run_monad.
    destruct (serpapi_get_dict w (tick s) params) as [results|]; simpl;
      apply new_events_app; simpl; now repeat rewrite <- app_assoc.
  - intros content url s prompt s'. subst s'.
    rewrite analyze_content_run. fold prompt. simpl.
    unfold failed_analysis, after_pause, after_generate.
    destruct (generate_content w (tick s) prompt) as [|[raw|]]; simpl.
    + apply new_events_app; simpl; now repeat rewrite <- app_assoc.
    + destruct (json_loads w (strip_fences raw)) as [v|];
        [destruct (as_object v)|]; simpl.
      * exists []. split; [|reflexivity].
        apply new_events_app; simpl; now repeat rewrite <- app_assoc.
      * eexists. split;
          [apply new_events_app; simpl; now repeat rewrite <- app_assoc|].
        reflexivity.
      * eexists. split;
          [apply new_events_app; simpl; now repeat rewrite <- app_assoc|].
        reflexivity.
    + eexists. split;
        [apply new_events_app; simpl; now repeat rewrite <- app_assoc|].
      reflexivity.
Qed.

End ExtractorClaims.

(** ** The loop of the orchestrator *)

Section Loop.

Context (w : world) (cfg : Config).

Lemma iteration_state i i' res s :
  snd (iteration w cfg i res s) = snd (iteration w cfg i' res s).
Proof.
  unfold iteration.
  destruct (extract_content w cfg _ s) as [[content|e] s1]; [|reflexivity].
  destruct (PyStr.is_empty content); [reflexivity|].
  now destruct (analyze_content w cfg content _ s1) as [[a|e] s2].
Qed.

(** One turn of the loop, then the rest of the loop. *)
Lemma loop_step i res rest acc s :
  for_each_result w cfg i (res :: rest) acc s =
  for_each_result w cfg (S i) rest
    (acc ++ option_list (fst (iteration w cfg i res s)))
    (snd (iteration w cfg i res s)).
Proof.
  simpl. unfold bind at 1. unfold iteration.
  destruct (extract_content_returns w cfg (get_or_empty (link res)) s)
    as (content & s1 & ->).
  destruct (PyStr.is_empty content); simpl.
  - now rewrite app_nil_r.
  - unfold bind at 1.
    destruct (analyze_content_returns w cfg content (get_or_empty (link res)) s1)
      as (a & s2 & ->). reflexivity.
Qed.

(** The state after the loop depends neither on the numbering of the hits
    nor on the list built so far. *)
Lemma loop_state results i i' acc acc' s :
  snd (for_each_result w cfg i results acc s) =
  snd (for_each_result w cfg i' results acc' s).
Proof.
  revert i i' acc acc' s.
  induction results as [|res rest IH]; intros i i' acc acc' s.
  - reflexivity.
  - rewrite !loop_step. rewrite (iteration_state i i').
    apply IH.
Qed.

Lemma state_at_0 s results : state_at w cfg s results 0 = s.
Proof. reflexivity. Qed.

Lemma state_at_S s res rest j :
  state_at w cfg s (res :: rest) (S j) =
  state_at w cfg (snd (iteration w cfg 0 res s)) rest j.
Proof.
  unfold state_at. simpl firstn. rewrite loop_step. apply loop_state.
Qed.

Lemma record_from_0 i0 s res rest :
  record_from w cfg i0 s (res :: rest) 0 = fst (iteration w cfg i0 res s).
Proof.
  unfold record_from. simpl. rewrite state_at_0. now rewrite Nat.add_0_r.
Qed.

Lemma record_from_S i0 s res rest j :
  record_from w cfg i0 s (res :: rest) (S j) =
  record_from w cfg (S i0) (snd (iteration w cfg i0 res s)) rest j.
Proof.
  unfold record_from. simpl. rewrite state_at_S.
  rewrite (iteration_state 0 i0). now rewrite Nat.add_succ_r.
Qed.

Lemma omap_seq_shift {A} (f : nat -> option A) a len :
  omap f (seq (S a) len) = omap (fun j => f (S j)) (seq a len).
Proof.
  revert a. induction len as [|len IH]; intros a; simpl.
  - reflexivity.
  - rewrite IH. reflexivity.
Qed.

Lemma omap_seq_ext {A} (f g : nat -> option A) a len :
  (forall j, f j = g j) -> omap f (seq a len) = omap g (seq a len).
Proof.
  intros Hfg. revert a. induction len as [|len IH]; intros a; simpl.
  - reflexivity.
  - now rewrite Hfg, IH.
Qed.

(** The loop appends, in the order of the hits, the record of each hit
    that has one. *)
Lemma loop_collects results i acc s :
  exists s',
    for_each_result w cfg i results acc s =
    (Returned (acc ++ omap (record_from w cfg i s results)
                           (seq 0 (List.length results)))%list, s').
Proof.
  revert i acc s. induction results as [|res rest IH]; intros i acc s.
  - exists s. simpl. now rewrite app_nil_r.
  - rewrite loop_step.
    destruct (IH (S i) (acc ++ option_list (fst (iteration w cfg i res s)))%list
                (snd (iteration w cfg i res s))) as (s' & ->).
    exists s'. f_equal. f_equal. rewrite <- app_assoc. f_equal.
    simpl List.length. simpl seq. cbn [omap list_omap].
    rewrite record_from_0, omap_seq_shift.
    rewrite (omap_seq_ext _ _ 0 _ (record_from_S i s res rest)).
    now destruct (fst (iteration w cfg i res s)).
Qed.

(** A record carries the rank of its hit and the title of its hit. *)
Lemma iteration_record i res s r :
  fst (iteration w cfg i res s) = Some r ->
  search_position_of r = Some (Z.of_nat i + 1) /\
  r !! "search_title" = Some (PStr (get_or_empty (title res))) /\
  r !! "search_snippet" = Some (PStr (get_or_empty (snippet res))).
Proof.
  unfold iteration.
  destruct (extract_content w cfg _ s) as [[content|e] s1]; [|discriminate].
  destruct (PyStr.is_empty content); [discriminate|].
  destruct (analyze_content w cfg content _ s1) as [[a|e] s2]; [|discriminate].
  simpl. intros [= <-]. unfold search_position_of, update_provenance.
  rewrite lookup_insert_eq.
  rewrite lookup_insert_ne by discriminate.
  rewrite lookup_insert_ne by discriminate.
  rewrite lookup_insert_eq.
  rewrite lookup_insert_ne by discriminate.
  rewrite lookup_insert_eq. auto.
Qed.

Lemma record_from_position i0 s results j r :
  record_from w cfg i0 s results j = Some r ->
  search_position_of r = Some (Z.of_nat (i0 + j) + 1) /\
  exists res, results !! j = Some res /\
    r !! "search_title" = Some (PStr (get_or_empty (title res))) /\
    r !! "search_snippet" = Some (PStr (get_or_empty (snippet res))).
Proof.
  unfold record_from. destruct (results !! j) as [res|]; [|discriminate].
  intros H. apply iteration_record in H as (Hpos & Ht & Hs). eauto 6.
Qed.

End Loop.

Section Orchestrator.

Context (w : world) (cfg : Config).

Lemma search_returns key agency range n s :
  exists results s0,
    search_drug_approvals w cfg key agency range n s = (Returned results, s0).
Proof.
  unfold search_drug_approvals, google_search_get_dict. run_monad.
  destruct (serpapi_get_dict w (tick s) _) as [results|]; simpl; eauto.
Qed.

Lemma track_approvals_run key agency range n s results s0 :
  search_drug_approvals w cfg key agency range n s = (Returned results, s0) ->
  track_approvals w cfg key agency range n s =
  for_each_result w cfg 0 results [] s0.
Proof. intros H. unfold track_approvals, bind. now rewrite H. Qed.

Lemma state_at_next results s j res :
  results !! j = Some res ->
  state_at w cfg s results (S j) =
  snd (iteration w cfg 0 res (state_at w cfg s results j)).
Proof.
  revert results s. induction j as [|j IH]; intros [|r0 rest] s H;
    try discriminate.
  - simpl in H. injection H as ->. now rewrite state_at_S, !state_at_0.
  - simpl in H. rewrite !state_at_S. now apply IH.
Qed.

(** What one turn does, in terms of the two extractors. *)
Lemma iteration_cases i res s :
  let url := get_or_empty (link res) in
  exists text s1,
    extract_content w cfg url s = (Returned text, s1) /\
    (text = EmptyString -> iteration w cfg i res s = (None, s1)) /\
    (text <> EmptyString ->
       exists analysis s2,
         analyze_content w cfg text url s1 = (Returned analysis, s2) /\
         iteration w cfg i res s = (Some (update_provenance analysis res i), s2)).
Proof.
  intros url. unfold iteration. fold url.
  destruct (extract_content_returns w cfg url s) as (text & s1 & Hx).
  exists text, s1. rewrite Hx. split; [reflexivity|]. split.
  - now intros ->.
  - intros Hne.
    destruct (analyze_content_returns w cfg text url s1) as (a & s2 & Ha).
    exists a, s2. rewrite Ha. split; [reflexivity|].
    destruct text; [congruence | reflexivity].
Qed.

Lemma record_from_yields i0 s results j :
  is_Some (record_from w cfg i0 s results j) <->
  yields_text w cfg s results j = true.
Proof.
  unfold record_from, yields_text.
  destruct (results !! j) as [res|];
    [|split; [intros [x H]|]; discriminate].
  destruct (iteration_cases (i0 + j) res (state_at w cfg s results j))
    as (text & s1 & Hx & Hempty & Htext).
  simpl in Hx. rewrite Hx. simpl.
  destruct text as [|c text].
  - rewrite Hempty by reflexivity. simpl.
    split; [intros [x H]|]; discriminate.
  - destruct Htext as (a & s2 & _ & ->); [discriminate|]. simpl.
    split; [reflexivity | eauto].
Qed.

(** The texts of the extractor never contain a generative call. *)
Lemma extract_content_events url s :
  exists evs,
    trace (snd (extract_content w cfg url s)) = (trace s ++ evs)%list /\
    existsb is_generate evs = false.
Proof.
  rewrite extract_content_run. simpl.
  destruct (requests_get w (tick s) url (request_timeout cfg)) as [resp|].
  - destruct ((400 <=? status_code resp) && (status_code resp <? 600)).
    + eexists. simpl. rewrite <- app_assoc. split; reflexivity.
    + destruct (declares_pdf resp).
      * rewrite pdf_content_run. simpl.
        destruct (pdf_text w (content resp)); eexists; simpl;
          rewrite <- app_assoc; split; reflexivity.
      * rewrite html_content_run.
        destruct (bs4_get_text w (text resp)); eexists; simpl;
          rewrite <- app_assoc; split; reflexivity.
  - eexists. simpl. rewrite <- app_assoc. split; reflexivity.
Qed.

Section Ranks.

(** [rec] gives the record of each hit, and a record carries the rank of
    its hit. *)
Variable rec : nat -> option dict.
Hypothesis rec_position :
  forall j r, rec j = Some r -> search_position_of r = Some (Z.of_nat j + 1).

Lemma records_at_seq a len j :
  records_at_position (Z.of_nat j + 1) (omap rec (seq a len)) =
  if (a <=? j)%nat && (j <? a + len)%nat then option_list (rec j) else [].
Proof.
  revert a. induction len as [|len IH]; intros a.
  - simpl. destruct (a <=? j)%nat eqn:Ha; simpl; [|reflexivity].
    destruct (Nat.ltb_spec j (a + 0)); [|reflexivity].
    apply Nat.leb_le in Ha. lia.
  - simpl seq. cbn [omap list_omap]. fold (omap rec (seq (S a) len)).
    assert (Htail :
      records_at_position (Z.of_nat j + 1) (omap rec (seq (S a) len)) =
      if (S a <=? j)%nat && (j <? a + S len)%nat
      then option_list (rec j) else []).
    { rewrite IH. now replace (S a + len)%nat with (a + S len)%nat by lia. }
    destruct (rec a) as [r|] eqn:Hr.
    + unfold records_at_position in *. simpl List.filter.
      rewrite (rec_position a r Hr). rewrite Htail.
      destruct (Z.eqb_spec (Z.of_nat a + 1) (Z.of_nat j + 1)) as [Heq|Hne].
      * assert (a = j) by lia. subst j. rewrite Hr.
        destruct (Nat.leb_spec a a); [|lia].
        destruct (Nat.ltb_spec a (a + S len)); [|lia].
        destruct (Nat.leb_spec (S a) a); [lia|]. reflexivity.
      * destruct (Nat.leb_spec a j), (Nat.leb_spec (S a) j),
          (Nat.ltb_spec j (a + S len)); simpl; try reflexivity; lia.
    + rewrite Htail.
      destruct (Nat.leb_spec a j), (Nat.leb_spec (S a) j),
        (Nat.ltb_spec j (a + S len)); simpl; try reflexivity; try lia.
      assert (a = j) by lia. subst j. now rewrite Hr.
Qed.

Variable keep : nat -> bool.
Hypothesis rec_keep : forall j, is_Some (rec j) <-> keep j = true.

Lemma positions_of_kept a len :
  List.map search_position_of (omap rec (seq a len)) =
  List.map (fun j => Some (Z.of_nat j + 1)) (List.filter keep (seq a len)).
Proof.
  revert a. induction len as [|len IH]; intros a.
  - reflexivity.
  - simpl seq. cbn [omap list_omap]. fold (omap rec (seq (S a) len)).
    simpl List.filter. pose proof (rec_keep a) as Hk.
    destruct (rec a) as [r|] eqn:Hr.
    + rewrite (proj1 Hk) by eauto. simpl.
      now rewrite (rec_position a r Hr), IH.
    + destruct (keep a); [|apply IH].
      destruct (proj2 Hk eq_refl) as [x Hx]. discriminate.
Qed.

End Ranks.

Lemma kept_ranks_sorted (keep : nat -> bool) a len :
  StronglySorted lt (List.filter keep (seq a len)) /\
  Forall (fun x => a <= x)%nat (List.filter keep (seq a len)).
Proof.
  revert a. induction len as [|len IH]; intros a; simpl.
  - split; constructor.
  - destruct (IH (S a)) as [Hs Hb].
    assert (Hb' : Forall (fun x => a <= x)%nat (List.filter keep (seq (S a) len))).
    { eapply Forall_impl; [exact Hb|]. simpl. intros; lia. }
    destruct (keep a); [|now split].
    split; constructor; auto.
Qed.

End Orchestrator.

Section OrchestratorClaims.

Context (w : world) (cfg : Config).

(** C1: in a run of [track_approvals], a hit for whose URL the Content
    Extractor returns the empty string contributes no record (no record
    carries its rank) and the Structured Extractor is not called for it:
    the loop goes on in the state the extraction left; a hit for which
    the extractor returns text is analysed and contributes exactly one
    record, the record of [analyze_content] (real or fallback) with the
    provenance of the hit.  The result list has as many records as there
    are hits that yield text. *)
Theorem empty_text_skipped_text_one_record
    key agency range n s results s0 j res :
  search_drug_approvals w cfg key agency range n s = (Returned results, s0) ->
  results !! j = Some res ->
  let url := get_or_empty (link res) in
  let before := state_at w cfg s0 results j in
  let after := state_at w cfg s0 results (S j) in
  exists processed s' text s1,
    track_approvals w cfg key agency range n s = (Returned processed, s') /\
    List.length processed =
      List.length (List.filter (yields_text w cfg s0 results)
                               (seq 0 (List.length results))) /\
    extract_content w cfg url before = (Returned text, s1) /\
    (text = EmptyString ->
       records_at_position (Z.of_nat j + 1) processed = [] /\
       after = s1 /\
       existsb is_generate (new_events before after) = false) /\
    (text <> EmptyString ->
       exists analysis,
         fst (analyze_content w cfg text url s1) = Returned analysis /\
         after = snd (analyze_content w cfg text url s1) /\
         records_at_position (Z.of_nat j + 1) processed =
           [update_provenance analysis res j]).
Proof.
  intros Hsearch Hres url before after. subst url.
  destruct (loop_collects w cfg results 0 [] s0) as (s' & Hloop).
  simpl in Hloop. fold (record_of_hit w cfg s0 results) in Hloop.
  destruct (iteration_cases w cfg j res before)
    as (text & s1 & Hx & Hempty & Htext).
  exists (omap (record_of_hit w cfg s0 results) (seq 0 (List.length results))),
    s', text, s1.
  assert (Hj : (j < List.length results)%nat)
    by (apply lookup_lt_is_Some; eauto).
  assert (Hrec : record_of_hit w cfg s0 results j =
                 fst (iteration w cfg j res before)).
  { unfold record_of_hit, record_from. now rewrite Hres. }
  assert (Hat : records_at_position (Z.of_nat j + 1)
                  (omap (record_of_hit w cfg s0 results)
                        (seq 0 (List.length results))) =
                option_list (record_of_hit w cfg s0 results j)).
  { rewrite records_at_seq.
    - destruct (Nat.leb_spec 0 j); [|lia].
      destruct (Nat.ltb_spec j (0 + List.length results)); [reflexivity | lia].
    - intros i r Hr. unfold record_of_hit in Hr.
      now apply record_from_position in Hr as [Hp _]. }
  assert (Hafter : after = snd (iteration w cfg j res before)).
  { unfold after, before. rewrite (state_at_next w cfg results s0 j res Hres).
    apply iteration_state. }
  split; [now rewrite (track_approvals_run w cfg _ _ _ _ _ _ _ Hsearch)|].
  split.
  { rewrite <- (length_map search_position_of), <- (length_map (fun j => Some (Z.of_nat j + 1))).
    f_equal. apply positions_of_kept.
    - intros i r Hr. unfold record_of_hit in Hr.
      now apply record_from_position in Hr as [Hp _].
    - intros i. apply record_from_yields. }
  split; [exact Hx|]. split.
  - intros Hnil. specialize (Hempty Hnil).
    rewrite Hat, Hrec, Hafter, Hempty. simpl.
    repeat split.
    destruct (extract_content_events w cfg (get_or_empty (link res)) before)
      as (evs & Htr & Hgen).
    rewrite Hx in Htr. simpl in Htr.
    now rewrite (new_events_app _ _ _ Htr).
  - intros Hne. destruct (Htext Hne) as (a & s2 & Ha & Hit).
    exists a. rewrite Hat, Hrec, Hafter, Hit, Ha. simpl. auto.
Qed.

(** C10: the result list of [track_approvals] is, in the order of the
    search results, the list of the records of the hits that yield text;
    each record carries under [search_position] one plus the index of its
    hit in the full list of search results, skipped hits included, and the
    title and snippet of that hit; so the positions of the result list are
    the ranks of the kept hits, strictly increasing and not contiguous
    when a hit in between is skipped. *)
Theorem search_position_is_original_rank key agency range n s results s0 :
  search_drug_approvals w cfg key agency range n s = (Returned results, s0) ->
  let kept :=
    List.filter (yields_text w cfg s0 results) (seq 0 (List.length results)) in
  exists processed s',
    track_approvals w cfg key agency range n s = (Returned processed, s') /\
    processed =
      omap (record_of_hit w cfg s0 results) (seq 0 (List.length results)) /\
    (forall j r, record_of_hit w cfg s0 results j = Some r ->
       search_position_of r = Some (Z.of_nat j + 1) /\
       exists res, results !! j = Some res /\
         r !! "search_title" = Some (PStr (get_or_empty (title res))) /\
         r !! "search_snippet" = Some (PStr (get_or_empty (snippet res)))) /\
    List.map search_position_of processed =
      List.map (fun j => Some (Z.of_nat j + 1)) kept /\
    StronglySorted lt kept.
Proof.
  intros Hsearch kept.
  destruct (loop_collects w cfg results 0 [] s0) as (s' & Hloop).
  simpl in Hloop. fold (record_of_hit w cfg s0 results) in Hloop.
  exists (omap (record_of_hit w cfg s0 results) (seq 0 (List.length results))), s'.
  assert (Hpos : forall j r, record_of_hit w cfg s0 results j = Some r ->
       search_position_of r = Some (Z.of_nat j + 1) /\
       exists res, results !! j = Some res /\
         r !! "search_title" = Some (PStr (get_or_empty (title res))) /\
         r !! "search_snippet" = Some (PStr (get_or_empty (snippet res)))).
  { intros j r Hr. unfold record_of_hit in Hr.
    now apply record_from_position in Hr. }
  split; [now rewrite (track_approvals_run w cfg _ _ _ _ _ _ _ Hsearch)|].
  split; [reflexivity|]. split; [exact Hpos|]. split.
  - apply positions_of_kept.
    + intros j r Hr. now apply Hpos in Hr as [Hp _].
    + intros j. apply record_from_yields.
  - apply kept_ranks_sorted.
Qed.

End OrchestratorClaims.

(** ** The claims on concrete runs *)

Module Runs.
Import Demo.

(** C1 on a run: the first hit is unreachable, its text is empty and no
    record of the result list carries the rank 1. *)
Lemma empty_text_skipped_text_one_record_witness :
  search_drug_approvals world_raising config "key" "fda.gov" "m" 10 init_state
    = (Returned hits, searched world_raising) /\
  hits !! 0%nat = Some hit_down /\
  exists processed s',
    track_approvals world_raising config "key" "fda.gov" "m" 10 init_state
      = (Returned processed, s') /\
    records_at_position 1 processed = [].
Proof.
  assert (H1 : search_drug_approvals world_raising config "key" "fda.gov" "m" 10
                 init_state = (Returned hits, searched world_raising))
    by (vm_compute; reflexivity).
  assert (H2 : hits !! 0%nat = Some hit_down) by reflexivity.
  split; [exact H1|]. split; [exact H2|].
  destruct (empty_text_skipped_text_one_record world_raising config
              "key" "fda.gov" "m" 10 init_state hits (searched world_raising)
              0 hit_down H1 H2)
    as (processed & s' & txt & s1 & Hrun & _ & Hx & Hempty & _).
  exists processed, s'. split; [exact Hrun|].
  apply Hempty. vm_compute in Hx. congruence.
Defined.

(** C2, as stated, fails: when the model raises, [drug_name] is
    ["Analysis failed"], not the sentinel. *)
Lemma fallback_drug_name_counterexample :
  generate_content world_raising 0 news_prompt = GenRaises /\
  exists r,
    fst (analyze_content world_raising config news_text url_news init_state)
      = Returned r /\
    r !! "confidence_score" = Some (PFloat (PyFloat 0 0)) /\
    r !! "drug_name" = Some (PStr "Analysis failed") /\
    r !! "drug_name" <> Some (PStr "Not specified").
Proof.
  split; [reflexivity|].
  exists (fallback_record url_news now).
  split; [vm_compute; reflexivity|].
  split; [reflexivity|]. split; [reflexivity|].
  vm_compute. discriminate.
Qed.

(** C2 (amended) on a run in which the model raises. *)
Lemma fallback_on_failed_extraction_witness :
  extraction_fails world_raising init_state news_prompt /\
  exists r now s',
    analyze_content world_raising config news_text url_news init_state
      = (Returned r, s') /\
    r !! "confidence_score" = Some (PFloat (PyFloat 0 0)) /\
    r !! "drug_name" = Some (PStr "Analysis failed") /\
    Forall (fun k => r !! k = Some (PStr "Not specified")) sentinel_keys /\
    r !! "source_url" = Some (PStr url_news) /\
    r !! "extraction_timestamp" = Some (PStr now).
Proof.
  assert (H : extraction_fails world_raising init_state news_prompt)
    by (vm_compute; exact I).
  split; [exact H|].
  exact (fallback_on_failed_extraction world_raising config news_text url_news
           init_state H).
Defined.

(** C3 on a run: the model answers with a JSON object whose [source_url]
    is another URL; the record of the hit of rank 2, whose link is
    [url_news], carries that other URL. *)
Theorem source_url_not_stamped_on_success :
  hits !! 1%nat = Some hit_news /\
  link hit_news = Some url_news /\
  url_other <> url_news /\
  exists r rest s',
    track_approvals world_other_url config "key" "fda.gov" "m" 10 init_state
      = (Returned (r :: rest), s') /\
    search_position_of r = Some 2 /\
    r !! "search_title" = Some (PStr "News") /\
    r !! "source_url" = Some (PStr url_other).
Proof.
  split; [reflexivity|]. split; [reflexivity|].
  split; [vm_compute; discriminate|].
  vm_compute. do 3 eexists. split; [reflexivity|].
  repeat split; vm_compute; reflexivity.
Qed.

(** C4, as stated, fails: a response with status 300 is not a 2xx
    response, and its text is returned. *)
Lemma status_300_counterexample :
  exists resp,
    requests_get world_raising 0 url_choices (request_timeout config) = Some resp /\
    ~ (200 <= status_code resp < 300) /\
    fst (extract_content world_raising config url_choices init_state)
      = Returned news_text /\
    news_text <> EmptyString.
Proof.
  eexists. split; [reflexivity|]. simpl.
  split; [lia|]. split; [vm_compute; reflexivity | discriminate].
Qed.

(** C4 (amended) on a run: the request for [url_down] raises. *)
Lemma extract_content_never_raises_witness :
  fetch_failure world_raising config init_state url_down /\
  fst (extract_content world_raising config url_down init_state)
    = Returned EmptyString.
Proof.
  assert (H : fetch_failure world_raising config init_state url_down)
    by (apply FailRequest; reflexivity).
  split; [exact H|].
  exact (proj2 (extract_content_never_raises world_raising config url_down
                  init_state) H).
Defined.

(** C5 with the configuration of the program, whose cap is 8000. *)
Lemma extracted_text_within_cap_witness :
  0 <= max_text_length config /\
  exists t s',
    extract_content world_raising config url_label init_state = (Returned t, s') /\
    PyStr.len t <= max_text_length config.
Proof.
  assert (H : 0 <= max_text_length config) by (simpl; lia).
  split; [exact H|].
  exact (proj2 (proj2 (extracted_text_within_cap world_raising config H
                         init_state)) url_label).
Defined.

(** C6 on a run: the model answers with the empty JSON object, a document
    that parses; the record of the success path has the time stamp and
    none of the eleven other keys of the schema, where the fallback
    record of the same function has all twelve. *)
Theorem success_record_misses_schema_keys :
  generate_content world_empty_object 0 news_prompt = GenResponse (Some "{}") /\
  exists r,
    fst (analyze_content world_empty_object config news_text url_news init_state)
      = Returned r /\
    r = <["extraction_timestamp" := PStr now]> ∅ /\
    has_key r "drug_name" = false /\
    r !! "drug_name" <> Some (PStr "Not specified") /\
    has_all_keys r = false.
Proof.
  split; [reflexivity|].
  eexists. split; [vm_compute; reflexivity|].
  split; [vm_compute; reflexivity|].
  split; [reflexivity|]. split; [vm_compute; discriminate | reflexivity].
Qed.

(** C7 on a run: the body of the response cannot be opened as a PDF; the
    branch returns the empty string and the temporary file, which did not
    exist before, is still on disk afterwards. *)
Theorem failed_pdf_parse_leaves_temporary_file :
  let run := _extract_pdf_content world_raising config bad_pdf init_state in
  pdf_text world_raising bad_pdf = None /\
  files init_state !! tmp_path = None /\
  fst run = Returned EmptyString /\
  files (snd run) !! tmp_path = Some bad_pdf /\
  existsb (fun ev => match ev with EvUnlink _ => true | _ => false end)
          (trace (snd run)) = false.
Proof.
  simpl. repeat split; vm_compute; reflexivity.
Qed.

(** C8 on a run: the search call raises, and the generative call raises,
    and in neither run is there a delay among the actions. *)
Theorem no_pause_after_raising_call :
  (serpapi_get_dict world_search_down 0
     (build_params (build_query "fda.gov") "key" "m" 10) = None /\
   existsb is_sleep
     (trace (snd (search_drug_approvals world_search_down config
                    "key" "fda.gov" "m" 10 init_state))) = false) /\
  (generate_content world_raising 0 news_prompt = GenRaises /\
   existsb is_sleep
     (trace (snd (analyze_content world_raising config news_text url_news
                    init_state))) = false).
Proof.
  repeat split; vm_compute; reflexivity.
Qed.

(** C9 (amended) on a run: a response without [content-type] header goes
    to the HTML branch. *)
Lemma dispatch_on_declared_content_type_witness :
  requests_get world_raising (tick init_state) url_choices
    (request_timeout config)
    = Some {| status_code := 300; content_type := None;
              content := []; text := news_text |} /\
  ~ (400 <= 300 < 600) /\
  existsb is_html_event
    (new_events init_state
       (snd (extract_content world_raising config url_choices init_state)))
    = true.
Proof.
  assert (H1 : requests_get world_raising (tick init_state) url_choices
                 (request_timeout config)
               = Some {| status_code := 300; content_type := None;
                         content := []; text := news_text |})
    by reflexivity.
  assert (H2 : ~ (400 <= 300 < 600)) by lia.
  split; [exact H1|]. split; [exact H2|].
  apply (dispatch_on_declared_content_type world_raising config url_choices
           init_state _ H1 H2).
  reflexivity.
Defined.

(** C10 on a run: the hits of rank 1 and 3 are skipped, and the positions
    of the result list are 2 and 4. *)
Lemma search_position_is_original_rank_witness :
  search_drug_approvals world_empty_object config "key" "fda.gov" "m" 10
    init_state = (Returned hits, searched world_empty_object) /\
  exists processed s',
    track_approvals world_empty_object config "key" "fda.gov" "m" 10 init_state
      = (Returned processed, s') /\
    List.map search_position_of processed = [Some 2; Some 4].
Proof.
  assert (H : search_drug_approvals world_empty_object config "key" "fda.gov"
                "m" 10 init_state = (Returned hits, searched world_empty_object))
    by (vm_compute; reflexivity).
  split; [exact H|].
  destruct (search_position_is_original_rank world_empty_object config
              "key" "fda.gov" "m" 10 init_state hits
              (searched world_empty_object) H)
    as (processed & s' & Hrun & _ & _ & Hpos & _).
  exists processed, s'. split; [exact Hrun|].
  rewrite Hpos. vm_compute. reflexivity.
Defined.

(** An answer wrapped in code fences is not JSON as it stands; the fences
    are stripped before parsing and the record is the one of the success
    path. *)
Lemma fenced_answer_is_parsed :
  json_loads world_fenced fenced_json = None /\
  strip_fences fenced_json = NL ++ "{}" ++ NL /\
  fst (analyze_content world_fenced config news_text url_news init_state)
    = Returned (<["extraction_timestamp" := PStr now]> ∅).
Proof.
  repeat split; vm_compute; reflexivity.
Qed.

(** With a negative bound a Python slice counts from the end, so the
    bound on the length needs a cap that is not negative. *)
Remark negative_bound_counts_from_the_end :
  PyStr.slice_to (-1) "ab" = "a" /\ PyStr.len (PyStr.slice_to (-1) "ab") = 1.
Proof. split; reflexivity. Qed.

End Runs.

Module HeaderRuns.
Import Demo DemoHeader.

(** C9, as stated, fails: the header [text/html; name=pdf] declares the
    media type [text/html], which does not indicate PDF, and the PDF
    branch is taken; the header [application/PDF] declares a PDF and the
    HTML branch is taken. *)
Lemma pdf_in_parameter_counterexample :
  (exists resp,
     requests_get world_headers 0 url_named (request_timeout config)
       = Some resp /\
     status_code resp = 200 /\
     content_type resp = Some "text/html; name=pdf" /\
     media_type "text/html; name=pdf" = "text/html" /\
     media_type_is_pdf (content_type resp) = false /\
     existsb is_pdf_event
       (new_events init_state
          (snd (extract_content world_headers config url_named init_state)))
       = true /\
     existsb is_html_event
       (new_events init_state
          (snd (extract_content world_headers config url_named init_state)))
       = false) /\
  (exists resp,
     requests_get world_headers 0 url_capitals (request_timeout config)
       = Some resp /\
     media_type_is_pdf (content_type resp) = true /\
     existsb is_pdf_event
       (new_events init_state
          (snd (extract_content world_headers config url_capitals init_state)))
       = false /\
     fst (extract_content world_headers config url_capitals init_state)
       = Returned news_text).
Proof.
  split; eexists; (split; [reflexivity|]); repeat split; vm_compute;
    reflexivity.
Qed.

End HeaderRuns.

(** * Further properties *)

(** ** Fence stripping and line normalisation *)

Module StripFacts.
Import PyStr.

Lemma str_app_cons x (a b : string) : String x a ++ b = String x (a ++ b).
Proof. reflexivity. Qed.

Lemma str_app_nil_l (a : string) : "" ++ a = a.
Proof. reflexivity. Qed.

Lemma str_app_assoc (a b c : string) : (a ++ b) ++ c = a ++ b ++ c.
Proof.
  induction a as [|x a IH]; [reflexivity|]. now rewrite !str_app_cons, IH.
Qed.

Lemma str_app_nil_r (a : string) : a ++ "" = a.
Proof.
  induction a as [|x a IH]; [reflexivity|]. now rewrite str_app_cons, IH.
Qed.

Lemma chars_app a b : chars (a ++ b) = (chars a ++ chars b)%list.
Proof.
  induction a as [|x a IH]; [reflexivity|].
  rewrite str_app_cons. unfold chars in *. simpl. now rewrite IH.
Qed.

Lemma is_empty_app_last a c : is_empty (a ++ String c "") = false.
Proof. now destruct a. Qed.

Lemma last_char s : s <> "" -> exists init c, s = init ++ String c "".
Proof.
  induction s as [|x s IH]; [congruence|]. intros _.
  destruct s as [|y s].
  - now exists "", x.
  - destruct IH as (init & c & H); [discriminate|].
    exists (String x init), c. rewrite str_app_cons. now rewrite <- H.
Qed.

Section Strip.
Variable p : ascii -> bool.

Lemma lstrip_by_all s :
  Forall (fun c => p c = true) (chars s) -> lstrip_by p s = "".
Proof.
  induction s as [|x s IH]; simpl; [reflexivity|].
  intros H. inversion H as [|? ? Hx Hs]; subst. rewrite Hx. now apply IH.
Qed.

Lemma lstrip_by_app_all pre s :
  Forall (fun c => p c = true) (chars pre) ->
  lstrip_by p (pre ++ s) = lstrip_by p s.
Proof.
  induction pre as [|x pre IH]; [reflexivity|].
  intros H. inversion H as [|? ? Hx Hs]; subst.
  rewrite str_app_cons. simpl. rewrite Hx. now apply IH.
Qed.

Lemma lstrip_by_head s c rest :
  lstrip_by p s = String c rest -> p c = false.
Proof.
  induction s as [|x s IH]; simpl; [discriminate|].
  destruct (p x) eqn:Hx; [exact IH|]. intros [= <- <-]. exact Hx.
Qed.

Lemma rstrip_by_all s :
  Forall (fun c => p c = true) (chars s) -> rstrip_by p s = "".
Proof.
  induction s as [|x s IH]; simpl; [reflexivity|].
  intros H. inversion H as [|? ? Hx Hs]; subst.
  rewrite (IH Hs), Hx. reflexivity.
Qed.

Lemma rstrip_by_app_all s post :
  Forall (fun c => p c = true) (chars post) ->
  rstrip_by p (s ++ post) = rstrip_by p s.
Proof.
  intros H. induction s as [|x s IH].
  - now apply rstrip_by_all.
  - rewrite str_app_cons. simpl. now rewrite IH.
Qed.

Lemma rstrip_by_last s c :
  p c = false -> rstrip_by p (s ++ String c "") = s ++ String c "".
Proof.
  intros Hc. induction s as [|x s IH].
  - simpl. now rewrite Hc.
  - rewrite str_app_cons. simpl. rewrite IH, is_empty_app_last. reflexivity.
Qed.

Lemma rstrip_by_end s init c :
  rstrip_by p s = init ++ String c "" -> p c = false.
Proof.
  revert init. induction s as [|x s IH]; intros init; simpl.
  - destruct init; discriminate.
  - destruct (is_empty (rstrip_by p s) && p x) eqn:Hc.
    + destruct init; discriminate.
    + destruct init as [|y init].
      * rewrite str_app_nil_l. intros [= -> Hr]. rewrite Hr in Hc. exact Hc.
      * rewrite str_app_cons. intros [= -> Hr]. now apply (IH init).
Qed.

Lemma rstrip_by_keeps_head c rest :
  p c = false ->
  exists rest', rstrip_by p (String c rest) = String c rest'.
Proof.
  intros Hc. simpl. rewrite Hc, andb_false_r. eauto.
Qed.

(** What remains after [strip_by] neither starts nor ends with a
    stripped character. *)
Lemma strip_by_edges s :
  (forall c rest, strip_by p s = String c rest -> p c = false) /\
  (forall init c, strip_by p s = init ++ String c "" -> p c = false).
Proof.
  unfold strip_by. split.
  - intros c rest H.
    destruct (lstrip_by p s) as [|x l] eqn:Hl; [discriminate|].
    pose proof (lstrip_by_head _ _ _ Hl) as Hx.
    destruct (rstrip_by_keeps_head x l Hx) as (r & Hr).
    rewrite Hr in H. injection H as <- _. exact Hx.
  - intros init c. apply rstrip_by_end.
Qed.

(** A string whose first and last characters are kept is left as it is,
    whatever is stripped around it. *)
Lemma strip_by_middle pre mid post a m b m' :
  Forall (fun c => p c = true) (chars pre) ->
  Forall (fun c => p c = true) (chars post) ->
  mid = String a m -> p a = false ->
  mid = m' ++ String b "" -> p b = false ->
  strip_by p (pre ++ mid ++ post) = mid.
Proof.
  intros Hpre Hpost Ha Hpa Hb Hpb. unfold strip_by.
  rewrite lstrip_by_app_all by exact Hpre.
  assert (Hl : lstrip_by p (mid ++ post) = mid ++ post).
  { rewrite Ha, str_app_cons. simpl. now rewrite Hpa. }
  rewrite Hl, rstrip_by_app_all by exact Hpost.
  rewrite Hb. now apply rstrip_by_last.
Qed.

End Strip.

Lemma backquote_fence_char c : backquote c = true -> fence_char c = true.
Proof.
  unfold backquote, fence_char. simpl.
  destruct (Ascii.eqb c "`"); simpl; [reflexivity | discriminate].
Qed.

(** Stripping with a smaller set after a larger one changes nothing. *)
Lemma strip_by_subset (p q : ascii -> bool) s :
  (forall c, q c = true -> p c = true) ->
  strip_by q (strip_by p s) = strip_by p s.
Proof.
  intros Hsub. destruct (strip_by_edges p s) as [Hhead Hlast].
  destruct (strip_by p s) as [|a m] eqn:Hs; [reflexivity|].
  destruct (last_char (String a m)) as (init & b & Hb); [discriminate|].
  assert (Ha : q a = false).
  { destruct (q a) eqn:E; [|reflexivity].
    specialize (Hhead a m eq_refl). rewrite (Hsub a E) in Hhead.
    discriminate. }
  assert (Hqb : q b = false).
  { destruct (q b) eqn:E; [|reflexivity].
    specialize (Hlast init b Hb). rewrite (Hsub b E) in Hlast.
    discriminate. }
  assert (Hnil : Forall (fun c => q c = true) (chars "")) by constructor.
  pose proof (strip_by_middle q "" (String a m) "" a m b init
                Hnil Hnil eq_refl Ha Hb Hqb) as H.
  rewrite str_app_nil_l, str_app_nil_r in H. exact H.
Qed.

End StripFacts.

Module FenceFacts.
Import PyStr StripFacts.

Lemma fence_char_not_space c : fence_char c = true -> isspace c = false.
Proof.
  unfold fence_char. simpl. rewrite !orb_false_r.
  intros H.
  repeat (apply orb_prop in H as [H|H];
          [apply Ascii.eqb_eq in H; subst c; reflexivity|]).
  apply Ascii.eqb_eq in H; subst c; reflexivity.
Qed.

(** The last [strip] of [strip_fences] never removes anything. *)
Lemma strip_fences_eq raw :
  strip_fences raw = strip_by fence_char (strip raw).
Proof.
  unfold strip_fences, strip_chars.
  apply (strip_by_subset fence_char backquote).
  exact backquote_fence_char.
Qed.

Lemma strip_blank_around ws1 ws2 mid a m b m' :
  blank ws1 -> blank ws2 ->
  mid = String a m -> isspace a = false ->
  mid = m' ++ String b "" -> isspace b = false ->
  strip (ws1 ++ mid ++ ws2) = mid.
Proof. intros. unfold strip. eapply strip_by_middle; eauto. Qed.

End FenceFacts.

Section FenceTheorems.
Import PyStr StripFacts FenceFacts.

(** X1: an answer wrapped in a code fence is unwrapped.  For white space
    [ws1], [ws2] around it and an opening fence made of back quotes and
    letters of [json] (as [```json] or [```]), [strip_fences] returns the
    lines between the fences, with their two line breaks. *)
Theorem strip_fences_unwraps ws1 ws2 opening obj :
  blank ws1 -> blank ws2 ->
  opening <> "" ->
  Forall (fun c => fence_char c = true) (chars opening) ->
  strip_fences (ws1 ++ (opening ++ NL ++ obj ++ NL ++ "```") ++ ws2)
  = NL ++ obj ++ NL.
Proof.
  intros Hws1 Hws2 Hne Hopen.
  rewrite strip_fences_eq.
  destruct opening as [|o opening']; [congruence|].
  assert (Ho : fence_char o = true) by now inversion Hopen.
  rewrite (strip_blank_around ws1 ws2 _ o
             (opening' ++ NL ++ obj ++ NL ++ "```")
             "`" (String o opening' ++ NL ++ obj ++ NL ++ "``")).
  - replace (NL ++ obj ++ NL ++ "```") with ((NL ++ obj ++ NL) ++ "```")
      by (now rewrite !str_app_assoc).
    apply (strip_by_middle fence_char (String o opening') (NL ++ obj ++ NL) "```"
             (ascii_of_nat 10) (obj ++ NL) (ascii_of_nat 10) (NL ++ obj)).
    + exact Hopen.
    + repeat constructor.
    + reflexivity.
    + reflexivity.
    + now rewrite str_app_assoc.
    + reflexivity.
  - exact Hws1.
  - exact Hws2.
  - reflexivity.
  - now apply fence_char_not_space.
  - rewrite !str_app_cons. f_equal. rewrite !str_app_assoc. reflexivity.
  - reflexivity.
Qed.

(** X2: a bare JSON object is left as it is.  A text that starts with an
    opening brace and ends with a closing brace, with white space around
    it, comes out of [strip_fences] without the white space and otherwise
    unchanged. *)
Theorem strip_fences_keeps_object ws1 ws2 body :
  blank ws1 -> blank ws2 ->
  strip_fences (ws1 ++ ("{" ++ body ++ "}") ++ ws2) = "{" ++ body ++ "}".
Proof.
  intros Hws1 Hws2. rewrite strip_fences_eq.
  rewrite (strip_blank_around ws1 ws2 _ "{" (body ++ "}") "}" ("{" ++ body));
    try reflexivity; try assumption.
  assert (Hnil : Forall (fun c => fence_char c = true) (chars ""))
    by constructor.
  pose proof (strip_by_middle fence_char "" ("{" ++ body ++ "}") ""
                "{" (body ++ "}") "}" ("{" ++ body)
                Hnil Hnil eq_refl eq_refl) as H.
  rewrite str_app_nil_l, str_app_nil_r in H. apply H; reflexivity.
Qed.

(** X3: what [strip_fences] returns never starts and never ends with a
    back quote or with one of the letters j, s, o, n: such characters are
    removed at both ends, also when they belong to the answer (a bare
    [null] comes out as [ull]). *)
Theorem strip_fences_edges raw :
  (forall c rest, strip_fences raw = String c rest -> fence_char c = false) /\
  (forall init c, strip_fences raw = init ++ String c "" ->
                  fence_char c = false).
Proof. rewrite strip_fences_eq. apply strip_by_edges. Qed.

End FenceTheorems.

Module LineFacts.
Import PyStr StripFacts.

Lemma chars_of_list l : chars (string_of_list_ascii l) = l.
Proof. apply list_ascii_of_string_of_list_ascii. Qed.

Lemma linebreak_is_space c : is_linebreak c = true -> isspace c = true.
Proof.
  unfold is_linebreak, isspace. set (n := N_of_ascii c). clearbody n.
  intros H.
  repeat match goal with
         | |- context [N.leb ?a ?b] => destruct (N.leb_spec a b)
         | |- context [N.eqb ?a ?b] => destruct (N.eqb_spec a b)
         | H : context [N.leb ?a ?b] |- _ => destruct (N.leb_spec a b)
         | H : context [N.eqb ?a ?b] |- _ => destruct (N.eqb_spec a b)
         end; simpl in *; try reflexivity; try discriminate; lia.
Qed.

Section Lines.
Variable P : ascii -> Prop.

(** The characters of the lines are characters of the text. *)
Lemma splitlines_aux_chars n : forall s cur,
  (String.length s <= n)%nat ->
  Forall P cur -> Forall P (chars s) ->
  Forall (fun l => Forall P (chars l)) (splitlines_aux cur s).
Proof.
  induction n as [|n IH]; intros s cur Hn Hcur Hs.
  - destruct s; [|simpl in Hn; lia]. simpl.
    destruct cur; constructor; [|constructor].
    rewrite chars_of_list. now apply Forall_rev.
  - destruct s as [|c s]; simpl.
    + destruct cur; constructor; [|constructor].
      rewrite chars_of_list. now apply Forall_rev.
    + inversion Hs as [|? ? Hc Hs']; subst. simpl in Hn.
      destruct (is_linebreak c).
      * constructor; [rewrite chars_of_list; now apply Forall_rev|].
        destruct s as [|d s'].
        -- apply IH; [simpl; lia | constructor | constructor].
        -- destruct (Ascii.eqb c CR && Ascii.eqb d LF).
           ++ apply IH; [simpl in Hn; lia | constructor |].
              now inversion Hs'.
           ++ apply IH; [simpl in *; lia | constructor | exact Hs'].
      * apply IH; [lia | now constructor | exact Hs'].
Qed.

End Lines.

(** No line contains a line break. *)
Lemma splitlines_aux_no_break n : forall s cur,
  (String.length s <= n)%nat ->
  Forall (fun c => is_linebreak c = false) cur ->
  Forall (fun l => Forall (fun c => is_linebreak c = false) (chars l))
         (splitlines_aux cur s).
Proof.
  induction n as [|n IH]; intros s cur Hn Hcur.
  - destruct s; [|simpl in Hn; lia]. simpl.
    destruct cur; constructor; [|constructor].
    rewrite chars_of_list. now apply Forall_rev.
  - destruct s as [|c s]; simpl.
    + destruct cur; constructor; [|constructor].
      rewrite chars_of_list. now apply Forall_rev.
    + simpl in Hn. destruct (is_linebreak c) eqn:Hc.
      * constructor; [rewrite chars_of_list; now apply Forall_rev|].
        destruct s as [|d s'].
        -- apply IH; [simpl; lia | constructor].
        -- destruct (Ascii.eqb c CR && Ascii.eqb d LF);
             (apply IH; [simpl in *; lia | constructor]).
      * apply IH; [lia | now constructor].
Qed.

(** A character that is no line break is in one of the lines. *)
Lemma splitlines_aux_covers x n : forall s cur,
  (String.length s <= n)%nat ->
  is_linebreak x = false ->
  In x cur \/ In x (chars s) ->
  Exists (fun l => In x (chars l)) (splitlines_aux cur s).
Proof.
  intros s cur Hn Hx. revert s cur Hn.
  induction n as [|n IH]; intros s cur Hn Hin.
  - destruct s; [|simpl in Hn; lia]. simpl.
    destruct Hin as [Hin|[]].
    destruct cur as [|y cur]; [destruct Hin|].
    constructor. rewrite chars_of_list. now apply in_rev in Hin.
  - destruct s as [|c s]; simpl.
    + destruct Hin as [Hin|[]].
      destruct cur as [|y cur]; [destruct Hin|].
      constructor. rewrite chars_of_list. now apply in_rev in Hin.
    + simpl in Hn. destruct (is_linebreak c) eqn:Hc.
      * destruct Hin as [Hin|Hin].
        { constructor. rewrite chars_of_list. now apply in_rev in Hin. }
        simpl in Hin. destruct Hin as [->|Hin]; [congruence|].
        apply Exists_cons_tl.
        destruct s as [|d s'].
        -- destruct Hin.
        -- destruct (Ascii.eqb c CR && Ascii.eqb d LF) eqn:Hcr.
           ++ apply andb_prop in Hcr as [_ Hd].
              apply Ascii.eqb_eq in Hd. subst d.
              simpl in Hin. destruct Hin as [<-|Hin]; [discriminate|].
              apply IH; [simpl in *; lia | now right].
           ++ apply IH; [simpl in *; lia | now right].
      * apply IH; [lia|].
        destruct Hin as [Hin|Hin]; [left; now right|].
        simpl in Hin. destruct Hin as [->|Hin]; [left; now left | now right].
Qed.

Section StripChars.
Variable p : ascii -> bool.
Variable P : ascii -> Prop.

Lemma lstrip_by_Forall s :
  Forall P (chars s) -> Forall P (chars (lstrip_by p s)).
Proof.
  induction s as [|c s IH]; simpl; [auto|].
  intros H. destruct (p c); [|exact H]. apply IH. now inversion H.
Qed.

Lemma rstrip_by_Forall s :
  Forall P (chars s) -> Forall P (chars (rstrip_by p s)).
Proof.
  induction s as [|c s IH]; simpl; [auto|].
  intros H. inversion H as [|? ? Hc Hs]; subst.
  destruct (is_empty (rstrip_by p s) && p c); [constructor|].
  constructor; auto.
Qed.

Lemma strip_by_Forall s :
  Forall P (chars s) -> Forall P (chars (strip_by p s)).
Proof. intros H. apply rstrip_by_Forall, lstrip_by_Forall, H. Qed.

Lemma lstrip_by_keeps x s :
  p x = false -> In x (chars s) -> In x (chars (lstrip_by p s)).
Proof.
  intros Hx. induction s as [|c s IH]; simpl; [auto|].
  intros [->|Hin]; [rewrite Hx; now left|].
  destruct (p c); [now apply IH | now right].
Qed.

Lemma rstrip_by_keeps x s :
  p x = false -> In x (chars s) -> In x (chars (rstrip_by p s)).
Proof.
  intros Hx. induction s as [|c s IH]; simpl; [auto|].
  intros [->|Hin].
  - rewrite Hx, andb_false_r. now left.
  - specialize (IH Hin).
    destruct (rstrip_by p s) as [|y r] eqn:Hr; [destruct IH|].
    simpl. now right.
Qed.

Lemma strip_by_keeps x s :
  p x = false -> In x (chars s) -> In x (chars (strip_by p s)).
Proof. intros Hx Hin. now apply rstrip_by_keeps, lstrip_by_keeps. Qed.

Lemma take_Forall n s : Forall P (chars s) -> Forall P (chars (take n s)).
Proof.
  revert n. induction s as [|c s IH]; intros n H; simpl; [constructor|].
  destruct (n <=? 0); [constructor|].
  inversion H; subst. constructor; auto.
Qed.

Lemma slice_to_Forall n s :
  Forall P (chars s) -> Forall P (chars (slice_to n s)).
Proof. intros H. unfold slice_to. destruct (0 <=? n); now apply take_Forall. Qed.

Lemma join_Forall sep parts :
  Forall P (chars sep) ->
  Forall (fun l => Forall P (chars l)) parts ->
  Forall P (chars (join sep parts)).
Proof.
  intros Hsep. induction parts as [|a parts IH]; intros H; [constructor|].
  inversion H as [|? ? Ha Hparts]; subst. specialize (IH Hparts).
  destruct parts as [|b parts]; [exact Ha|].
  change (join sep (a :: b :: parts)) with (a ++ sep ++ join sep (b :: parts)).
  rewrite !chars_app. apply Forall_app. split; [exact Ha|].
  apply Forall_app. now split.
Qed.

End StripChars.

Lemma strip_blank s : blank s -> strip s = "".
Proof.
  intros H. unfold strip, strip_by. now rewrite lstrip_by_all.
Qed.

Lemma join_head sep a parts c rest :
  a = String c rest -> exists rest', join sep (a :: parts) = String c rest'.
Proof.
  intros ->. destruct parts as [|b parts]; [eauto|].
  change (join sep (String c rest :: b :: parts))
    with (String c rest ++ sep ++ join sep (b :: parts)).
  rewrite str_app_cons. eauto.
Qed.

Lemma join_last sep parts : forall a init c,
  last (a :: parts) = Some (init ++ String c "") ->
  exists init', join sep (a :: parts) = init' ++ String c "".
Proof.
  induction parts as [|b parts IH]; intros a init c H.
  - injection H as ->. simpl. eauto.
  - change (join sep (a :: b :: parts))
      with (a ++ sep ++ join sep (b :: parts)).
    destruct (IH b init c H) as (init' & ->).
    exists (a ++ sep ++ init'). now rewrite !str_app_assoc.
Qed.

Lemma app_last_inj a b (x y : ascii) :
  a ++ String x "" = b ++ String y "" -> x = y.
Proof.
  revert b. induction a as [|c a IH]; intros [|d b] H.
  - now injection H.
  - rewrite str_app_nil_l, str_app_cons in H. injection H as _ H.
    destruct b; discriminate.
  - rewrite str_app_nil_l, str_app_cons in H. injection H as _ H.
    destruct a; discriminate.
  - rewrite !str_app_cons in H. injection H as _ H. now apply (IH b).
Qed.

Lemma parts_of_edges raw :
  Forall (fun l => l <> "" /\
            (forall c rest, l = String c rest -> isspace c = false) /\
            (forall init c, l = init ++ String c "" -> isspace c = false))
         (parts_of raw).
Proof.
  unfold parts_of. apply Forall_forall. intros l Hl.
  apply list_elem_of_In, filter_In in Hl as [Hin Hne].
  apply in_map_iff in Hin as (l0 & <- & _).
  split; [now destruct (strip l0)|]. apply strip_by_edges.
Qed.

End LineFacts.

Section HtmlText.
Import PyStr StripFacts LineFacts.

Lemma normalize_lines_parts raw :
  normalize_lines raw = join " " (parts_of raw).
Proof. reflexivity. Qed.

Lemma normalize_lines_no_break raw :
  Forall (fun c => is_linebreak c = false) (chars (normalize_lines raw)).
Proof.
  rewrite normalize_lines_parts. apply join_Forall.
  - repeat constructor.
  - unfold parts_of. apply Forall_forall. intros l Hl.
    apply list_elem_of_In, filter_In in Hl as [Hin _].
    apply in_map_iff in Hin as (l0 & <- & Hin0).
    apply strip_by_Forall.
    pose proof (splitlines_aux_no_break (String.length raw) raw []
                  (le_n _) (List.Forall_nil _)) as H.
    rewrite Forall_forall in H. apply H. now apply list_elem_of_In.
Qed.

Lemma normalize_lines_head raw c rest :
  normalize_lines raw = String c rest -> isspace c = false.
Proof.
  rewrite normalize_lines_parts. pose proof (parts_of_edges raw) as H.
  destruct (parts_of raw) as [|a parts]; [discriminate|].
  inversion H as [|? ? (Hne & Hhead & _) _]; subst.
  destruct a as [|x r]; [congruence|].
  destruct (join_head " " (String x r) parts x r eq_refl) as (r' & ->).
  intros [= <- _]. now apply (Hhead x r).
Qed.

Lemma normalize_lines_last raw init c :
  normalize_lines raw = init ++ String c "" -> isspace c = false.
Proof.
  rewrite normalize_lines_parts. pose proof (parts_of_edges raw) as H.
  destruct (parts_of raw) as [|a parts] eqn:Hp.
  - destruct init; discriminate.
  - destruct (last (a :: parts)) as [l|] eqn:Hl;
      [|now apply last_None in Hl].
    assert (Hin : l ∈ a :: parts) by now apply last_Some_elem_of.
    rewrite Forall_forall in H. destruct (H l Hin) as (Hne & _ & Hlast).
    destruct (last_char l Hne) as (i & x & Hx). subst l.
    destruct (join_last " " parts a i x Hl) as (i' & ->).
    intros Heq. apply app_last_inj in Heq. subst c. now apply (Hlast i x).
Qed.

Lemma slice_to_head n s c rest :
  slice_to n s = String c rest -> exists rest', s = String c rest'.
Proof.
  unfold slice_to.
  assert (H : forall m, take m s = String c rest -> exists rest', s = String c rest').
  { intros m. destruct s as [|x s]; simpl; [discriminate|].
    destruct (m <=? 0); [discriminate|]. intros [= -> _]. eauto. }
  destruct (0 <=? n); apply H.
Qed.

(** X4: the text of the HTML branch is one line without white space at its
    start.  The joined text [normalize_lines raw] contains no line break
    and neither starts nor ends with white space; the text returned by
    [_extract_html_content], a prefix of it, contains no line break and
    does not start with white space. *)
Theorem html_text_shape (w : world) (cfg : Config) html s raw :
  bs4_get_text w html = Some raw ->
  (Forall (fun c => is_linebreak c = false) (chars (normalize_lines raw)) /\
   (forall c rest, normalize_lines raw = String c rest -> isspace c = false) /\
   (forall init c, normalize_lines raw = init ++ String c "" ->
                   isspace c = false)) /\
  exists t s',
    _extract_html_content w cfg html s = (Returned t, s') /\
    Forall (fun c => is_linebreak c = false) (chars t) /\
    (forall c rest, t = String c rest -> isspace c = false).
Proof.
  intros Hraw. split.
  - split; [apply normalize_lines_no_break|].
    split; [apply normalize_lines_head | apply normalize_lines_last].
  - rewrite html_content_run, Hraw. eexists; eexists.
    split; [reflexivity|]. split.
    + apply slice_to_Forall, normalize_lines_no_break.
    + intros c rest H. apply slice_to_head in H as (rest' & H).
      now apply normalize_lines_head in H.
Qed.

Lemma parts_of_blank lines :
  Forall blank lines ->
  List.filter (fun l => negb (is_empty l)) (List.map strip lines) = [].
Proof.
  induction 1 as [|l lines Hl _ IH]; [reflexivity|].
  simpl. now rewrite (strip_blank l Hl).
Qed.

(** The joined text is empty exactly when the page text is white space. *)
Lemma normalize_lines_empty raw :
  normalize_lines raw = "" <-> blank raw.
Proof.
  split.
  - intros Hempty. unfold blank. apply Forall_forall. intros x Hx.
    apply list_elem_of_In in Hx.
    destruct (isspace x) eqn:Hsp; [reflexivity|]. exfalso.
    assert (Hlb : is_linebreak x = false).
    { destruct (is_linebreak x) eqn:E; [|reflexivity].
      apply linebreak_is_space in E. congruence. }
    pose proof (splitlines_aux_covers x (String.length raw) raw []
                  (le_n _) Hlb (or_intror Hx)) as Hex.
    apply Exists_exists in Hex as (l & Hl & Hxl).
    assert (Hpart : strip l ∈ parts_of raw).
    { unfold parts_of. apply list_elem_of_In, filter_In. split.
      - apply in_map. now apply list_elem_of_In.
      - pose proof (strip_by_keeps isspace x l Hsp Hxl) as Hk.
        fold (strip l) in Hk. now destruct (strip l). }
    rewrite normalize_lines_parts in Hempty.
    pose proof (parts_of_edges raw) as Hedges.
    destruct (parts_of raw) as [|a parts]; [now apply elem_of_nil in Hpart|].
    inversion Hedges as [|? ? (Hne & _) _]; subst.
    destruct a as [|c r]; [congruence|].
    destruct (join_head " " (String c r) parts c r eq_refl) as (r' & Hj).
    rewrite Hj in Hempty. discriminate.
  - intros Hblank. rewrite normalize_lines_parts. unfold parts_of.
    rewrite parts_of_blank; [reflexivity|].
    pose proof (splitlines_aux_chars (fun c => isspace c = true)
                  (String.length raw) raw [] (le_n _) (List.Forall_nil _)
                  Hblank) as H.
    exact H.
Qed.

Lemma take_empty n s : 0 < n -> take n s = "" -> s = "".
Proof.
  intros Hn. destruct s as [|c s]; simpl; [reflexivity|].
  destruct (Z.leb_spec n 0); [lia | discriminate].
Qed.

(** X5: with a positive cap, the HTML branch returns the empty string
    exactly when the page cannot be parsed or its text is white space
    only; such a page is skipped by the orchestrator like a failed
    fetch. *)
Theorem html_text_empty_iff (w : world) (cfg : Config) html s :
  0 < max_text_length cfg ->
  fst (_extract_html_content w cfg html s) = Returned "" <->
  bs4_get_text w html = None \/
  exists raw, bs4_get_text w html = Some raw /\ blank raw.
Proof.
  intros Hcap. rewrite html_content_run.
  destruct (bs4_get_text w html) as [raw|]; simpl.
  - unfold slice_to. destruct (Z.leb_spec 0 (max_text_length cfg)); [|lia].
    split.
    + intros [= Ht]. right. exists raw. split; [reflexivity|].
      apply normalize_lines_empty. now apply (take_empty _ _ Hcap).
    + intros [Hn|(raw' & [= <-] & Hb)]; [discriminate|].
      apply normalize_lines_empty in Hb. rewrite Hb. reflexivity.
  - split; [now left | reflexivity].
Qed.

End HtmlText.

(** ** The calls of a run *)

Section Calls.

Context (w : world) (cfg : Config).

Lemma fetched_urls_app a b :
  fetched_urls (a ++ b) = (fetched_urls a ++ fetched_urls b)%list.
Proof. apply omap_app. Qed.

Lemma prompts_sent_app a b :
  prompts_sent (a ++ b) = (prompts_sent a ++ prompts_sent b)%list.
Proof. apply omap_app. Qed.

Lemma searches_made_app a b :
  searches_made (a ++ b) = (searches_made a ++ searches_made b)%list.
Proof. apply omap_app. Qed.

(** What [search_drug_approvals] returns and does. *)
Lemma search_run key agency range n s :
  let query := build_query agency in
  let params := build_params query key range n in
  search_drug_approvals w cfg key agency range n s =
  match serpapi_get_dict w (tick s) params with
  | Some answer =>
      (Returned (match answer with Some hits => hits | None => [] end),
       logged (ticked s)
         [EvLogInfo ("Searching: " ++ query); EvSearch params;
          EvSleep (serpapi_delay cfg)])
  | None =>
      (Returned [],
       logged (ticked s)
         [EvLogInfo ("Searching: " ++ query); EvSearch params;
          EvLogError "Search failed: " SearchError])
  end.
Proof.
  intros query params.
  unfold search_drug_approvals, google_search_get_dict.
  fold query. fold params. run_monad.
  destruct (serpapi_get_dict w (tick s) params) as [answer|]; simpl;
    f_equal; state_eq.
Qed.

Lemma extract_content_calls url s :
  exists evs,
    trace (snd (extract_content w cfg url s)) = (trace s ++ evs)%list /\
    fetched_urls evs = [url] /\ prompts_sent evs = [] /\
    searches_made evs = [].
Proof.
  rewrite extract_content_run. simpl.
  destruct (requests_get w (tick s) url (request_timeout cfg)) as [resp|].
  - destruct ((400 <=? status_code resp) && (status_code resp <? 600)).
    + eexists. simpl. rewrite <- app_assoc. repeat split; reflexivity.
    + destruct (declares_pdf resp).
      * rewrite pdf_content_run. simpl.
        destruct (pdf_text w (content resp)); eexists; simpl;
          rewrite <- app_assoc; repeat split; reflexivity.
      * rewrite html_content_run.
        destruct (bs4_get_text w (text resp)); eexists; simpl;
          rewrite <- app_assoc; repeat split; reflexivity.
  - eexists. simpl. rewrite <- app_assoc. repeat split; reflexivity.
Qed.

Lemma analyze_content_calls content url s :
  exists evs,
    trace (snd (analyze_content w cfg content url s)) = (trace s ++ evs)%list /\
    fetched_urls evs = [] /\
    prompts_sent evs = [build_prompt (PyStr.slice_to 4000 content) url] /\
    searches_made evs = [].
Proof.
  rewrite analyze_content_run. simpl.
  unfold failed_analysis, after_pause, after_generate.
  destruct (generate_content w (tick s) _) as [|[raw|]]; simpl.
  - eexists. rewrite <- app_assoc. repeat split; reflexivity.
  - destruct (json_loads w (strip_fences raw)) as [v|];
      [destruct (as_object v)|]; simpl; eexists;
      repeat rewrite <- app_assoc; repeat split; reflexivity.
  - eexists. repeat rewrite <- app_assoc. repeat split; reflexivity.
Qed.

Lemma iteration_calls i res s :
  exists evs,
    trace (snd (iteration w cfg i res s)) = (trace s ++ evs)%list /\
    fetched_urls evs = [get_or_empty (link res)] /\
    List.length (prompts_sent evs) =
      List.length (option_list (fst (iteration w cfg i res s))) /\
    searches_made evs = [].
Proof.
  unfold iteration.
  destruct (extract_content_calls (get_or_empty (link res)) s)
    as (evs & Htr & Hf & Hp & Hs).
  destruct (extract_content w cfg (get_or_empty (link res)) s)
    as [[text|e] s1]; simpl in Htr.
  - destruct (PyStr.is_empty text).
    + exists evs. simpl. rewrite Hp. auto.
    + destruct (analyze_content_calls text (get_or_empty (link res)) s1)
        as (evs' & Htr' & Hf' & Hp' & Hs').
      destruct (analyze_content_returns w cfg text (get_or_empty (link res)) s1)
        as (a & s2 & Ha).
      rewrite Ha in *. simpl in *. exists (evs ++ evs')%list.
      rewrite Htr', Htr, <- app_assoc, fetched_urls_app, prompts_sent_app,
        searches_made_app, Hf, Hf', Hp, Hp', Hs, Hs'. auto.
  - exists evs. simpl. rewrite Hp. auto.
Qed.

(** The calls of the loop: one request per hit, in order, one prompt per
    record, no search. *)
Lemma loop_calls results : forall i acc s,
  exists new s' evs,
    for_each_result w cfg i results acc s = (Returned (acc ++ new)%list, s') /\
    trace s' = (trace s ++ evs)%list /\
    fetched_urls evs = List.map (fun res => get_or_empty (link res)) results /\
    List.length (prompts_sent evs) = List.length new /\
    searches_made evs = [].
Proof.
  induction results as [|res rest IH]; intros i acc s.
  - exists [], s, []. simpl. rewrite !app_nil_r. auto.
  - rewrite loop_step.
    destruct (iteration_calls i res s) as (evs & Htr & Hf & Hp & Hs).
    destruct (IH (S i) (acc ++ option_list (fst (iteration w cfg i res s)))%list
                (snd (iteration w cfg i res s)))
      as (new & s' & evs' & Hrun & Htr' & Hf' & Hp' & Hs').
    exists (option_list (fst (iteration w cfg i res s)) ++ new)%list, s',
      (evs ++ evs')%list.
    rewrite Hrun, Htr', Htr, <- !app_assoc, fetched_urls_app,
      prompts_sent_app, searches_made_app, !length_app, Hf, Hf', Hp, Hp',
      Hs, Hs'.
    auto.
Qed.

Lemma iteration_timestamp i res s r :
  fst (iteration w cfg i res s) = Some r ->
  has_key r "extraction_timestamp" = true.
Proof.
  unfold iteration.
  destruct (extract_content w cfg _ s) as [[text|e] s1]; [|discriminate].
  destruct (PyStr.is_empty text); [discriminate|].
  destruct (analyze_content_record w cfg text (get_or_empty (link res)) s1)
    as (now & s2 & Hrun).
  rewrite Hrun. simpl. intros [= <-]. unfold update_provenance.
  rewrite !has_key_insert. simpl.
  destruct (model_object w s1 _); [now rewrite has_key_insert | reflexivity].
Qed.

End Calls.

Section CallTheorems.

Context (w : world) (cfg : Config).

(** X6: one analysis is one generative call, whatever its outcome: the
    actions of [analyze_content] contain exactly one prompt, no retry
    follows a failure, and the prompt is built from the first 4000
    characters of the content, so two contents that agree on them are
    analysed alike. *)
Theorem analysis_calls_model_once content url s :
  prompts_sent (new_events s (snd (analyze_content w cfg content url s))) =
    [build_prompt (PyStr.slice_to 4000 content) url] /\
  forall content',
    PyStr.slice_to 4000 content' = PyStr.slice_to 4000 content ->
    analyze_content w cfg content' url s = analyze_content w cfg content url s.
Proof.
  split.
  - destruct (analyze_content_calls w cfg content url s)
      as (evs & Htr & _ & Hp & _).
    now rewrite (new_events_app _ _ _ Htr).
  - intros content' H. unfold analyze_content. now rewrite H.
Qed.

(** X7: the calls of a run.  [track_approvals] makes exactly one search,
    requests the link of every hit exactly once and in the order of the
    search results, and sends exactly as many prompts as there are
    records in the result list. *)
Theorem run_calls key agency range n s results s0 :
  search_drug_approvals w cfg key agency range n s = (Returned results, s0) ->
  exists processed s',
    track_approvals w cfg key agency range n s = (Returned processed, s') /\
    searches_made (new_events s s') =
      [build_params (build_query agency) key range n] /\
    fetched_urls (new_events s s') =
      List.map (fun res => get_or_empty (link res)) results /\
    List.length (prompts_sent (new_events s s')) = List.length processed.
Proof.
  intros Hsearch.
  rewrite (track_approvals_run w cfg _ _ _ _ _ _ _ Hsearch).
  destruct (loop_calls w cfg results 0 [] s0)
    as (new & s' & evs & Hrun & Htr & Hf & Hp & Hs).
  simpl in Hrun. exists new, s'. split; [exact Hrun|].
  assert (H0 : exists evs0,
             trace s0 = (trace s ++ evs0)%list /\
             searches_made evs0 = [build_params (build_query agency) key range n] /\
             fetched_urls evs0 = [] /\ prompts_sent evs0 = []).
  { rewrite search_run in Hsearch. simpl in Hsearch.
    destruct (serpapi_get_dict w (tick s) _); injection Hsearch as _ <-;
      eexists; (split; [reflexivity|]); repeat split; reflexivity. }
  destruct H0 as (evs0 & Htr0 & Hs0 & Hf0 & Hp0).
  assert (Hall : trace s' = (trace s ++ (evs0 ++ evs))%list).
  { now rewrite Htr, Htr0, <- app_assoc. }
  rewrite (new_events_app _ _ _ Hall), searches_made_app, fetched_urls_app,
    prompts_sent_app, Hs0, Hs, Hf0, Hf, Hp0. simpl. rewrite Hp. auto.
Qed.

(** X8: a search without hits ends the run at once.  When the search call
    raises, or its answer has no [organic_results], or the list is empty,
    [track_approvals] returns the empty list, requests no URL, sends no
    prompt and leaves the temporary directory as it was. *)
Theorem failed_search_ends_run key agency range n s :
  let params := build_params (build_query agency) key range n in
  serpapi_get_dict w (tick s) params = None \/
  serpapi_get_dict w (tick s) params = Some None \/
  serpapi_get_dict w (tick s) params = Some (Some []) ->
  exists s',
    track_approvals w cfg key agency range n s = (Returned [], s') /\
    fetched_urls (new_events s s') = [] /\
    prompts_sent (new_events s s') = [] /\
    files s' = files s.
Proof.
  intros params H. unfold track_approvals, bind.
  rewrite search_run. simpl. fold params.
  destruct H as [-> | [-> | ->]]; simpl; eexists;
    (split; [reflexivity|]);
    (erewrite new_events_app by reflexivity); auto.
Qed.

(** X9: every record of the result list carries the time stamp and the
    three provenance keys, whether the analysis succeeded or fell back,
    and whatever keys the model returned. *)
Theorem records_carry_provenance key agency range n s results s0 :
  search_drug_approvals w cfg key agency range n s = (Returned results, s0) ->
  exists processed s',
    track_approvals w cfg key agency range n s = (Returned processed, s') /\
    Forall (fun r => Forall (fun k => has_key r k = true) provenance_keys)
           processed.
Proof.
  intros Hsearch.
  rewrite (track_approvals_run w cfg _ _ _ _ _ _ _ Hsearch).
  destruct (loop_collects w cfg results 0 [] s0) as (s' & Hloop).
  simpl in Hloop. eexists; eexists; split; [exact Hloop|].
  apply Forall_forall. intros r Hr.
  apply list_elem_of_omap in Hr as (j & _ & Hj).
  pose proof Hj as Hj'. apply record_from_position in Hj' as (Hpos & res & Hres & Ht & Hsn).
  unfold record_from in Hj. rewrite Hres in Hj.
  apply iteration_timestamp in Hj.
  unfold provenance_keys, has_key. repeat constructor.
  - exact Hj.
  - now rewrite Ht.
  - now rewrite Hsn.
  - unfold search_position_of in Hpos.
    destruct (r !! "search_position"); [reflexivity | discriminate].
Qed.

End CallTheorems.

(** ** PDF text, temporary files and queries *)

Section PdfText.
Import StripFacts.

Lemma pages_text_all texts : forall acc,
  pages_text (List.map Some texts) acc = Some (acc ++ PyStr.join "" texts).
Proof.
  induction texts as [|t rest IH]; intros acc.
  - simpl. now rewrite str_app_nil_r.
  - simpl List.map. cbn [pages_text]. rewrite IH.
    destruct rest as [|t' rest].
    + simpl. now rewrite str_app_nil_r.
    + change (PyStr.join "" (t :: t' :: rest))
        with (t ++ "" ++ PyStr.join "" (t' :: rest)).
      now rewrite str_app_nil_l, str_app_assoc.
Qed.

Lemma pages_text_unreadable pages : forall acc,
  In None pages -> pages_text pages acc = None.
Proof.
  induction pages as [|[t|] rest IH]; intros acc Hin.
  - destruct Hin.
  - simpl. apply IH. destruct Hin as [H|H]; [discriminate | exact H].
  - reflexivity.
Qed.

Context (w : world) (cfg : Config).

(** X10: the text of a PDF is the text of its pages in page order, cut at
    the cap; one page that cannot be read discards the whole document:
    the branch then returns the empty string, whatever the other pages
    hold. *)
Theorem pdf_text_in_page_order bytes s :
  (forall texts,
     fitz_open w bytes = Some (List.map Some texts) ->
     fst (_extract_pdf_content w cfg bytes s) =
     Returned (PyStr.slice_to (max_text_length cfg) (PyStr.join "" texts))) /\
  (forall pages,
     fitz_open w bytes = Some pages -> In None pages ->
     fst (_extract_pdf_content w cfg bytes s) = Returned "").
Proof.
  split.
  - intros texts H. rewrite pdf_content_run. simpl. unfold pdf_text.
    rewrite H, pages_text_all. reflexivity.
  - intros pages H Hin. rewrite pdf_content_run. simpl. unfold pdf_text.
    rewrite H, (pages_text_unreadable pages "" Hin). reflexivity.
Qed.

(** X11: an extraction leaves the temporary directory as it found it
    unless the PDF parser fails: when the name chosen for the temporary
    file is fresh, and the fetch does not end in a failed PDF parse, the
    files after [extract_content] are the files before it. *)
Theorem extraction_leaves_no_file url s :
  files s !! tempfile_name w (tick (after_get cfg s url)) = None ->
  ~ pdf_parse_fails w cfg s url ->
  files (snd (extract_content w cfg url s)) = files s.
Proof.
  intros Hfresh Hok. rewrite extract_content_run. simpl.
  destruct (requests_get w (tick s) url (request_timeout cfg)) as [resp|] eqn:Hget;
    [|reflexivity].
  destruct ((400 <=? status_code resp) && (status_code resp <? 600)) eqn:Hst;
    [reflexivity|].
  destruct (declares_pdf resp) eqn:Hpdf.
  - rewrite pdf_content_run. simpl.
    destruct (pdf_text w (content resp)) eqn:Htext; simpl.
    + apply delete_insert_id. exact Hfresh.
    + exfalso. apply Hok. exists resp. repeat split; auto.
      intros [H1 H2]. apply andb_false_iff in Hst as [H|H].
      * apply Z.leb_gt in H. lia.
      * apply Z.ltb_ge in H. lia.
  - rewrite html_content_run. now destruct (bs4_get_text w (text resp)).
Qed.

End PdfText.

(** X12: the query is restricted to a site exactly when the agency domain
    is, character for character, one of the three known domains, and it
    is then restricted to that domain; any other string, such as the
    same domain in capitals, gets the one generic query, which names the
    three agencies; every query asks for approved items; the three
    queries of the known domains are the ones written out below. *)
Theorem query_site_restriction agency :
  (In agency known_agencies ->
   PyStr.is_prefix ("site:" ++ agency ++ " ") (build_query agency) = true) /\
  (PyStr.contains "site:" (build_query agency) = true <->
   In agency known_agencies) /\
  (~ In agency known_agencies -> build_query agency = generic_query) /\
  PyStr.contains "FDA OR EMA OR CDSCO" generic_query = true /\
  PyStr.contains "approved" (build_query agency) = true /\
  build_query "fda.gov" =
    "site:fda.gov drug approval " ++ DQ ++ "approved" ++ DQ ++ " -generic" /\
  build_query "ema.europa.eu" =
    "site:ema.europa.eu " ++ DQ ++ "marketing authorisation" ++ DQ ++
    " drug approved" /\
  build_query "cdsco.gov.in" =
    "site:cdsco.gov.in drug approval " ++ DQ ++ "approved" ++ DQ ++ " license".
Proof.
  assert (Htable :
    build_query "fda.gov" =
      "site:fda.gov drug approval " ++ DQ ++ "approved" ++ DQ ++ " -generic" /\
    build_query "ema.europa.eu" =
      "site:ema.europa.eu " ++ DQ ++ "marketing authorisation" ++ DQ ++
      " drug approved" /\
    build_query "cdsco.gov.in" =
      "site:cdsco.gov.in drug approval " ++ DQ ++ "approved" ++ DQ ++ " license")
    by (repeat split; reflexivity).
  cut ((In agency known_agencies ->
        PyStr.is_prefix ("site:" ++ agency ++ " ") (build_query agency) = true) /\
       (PyStr.contains "site:" (build_query agency) = true <->
        In agency known_agencies) /\
       (~ In agency known_agencies -> build_query agency = generic_query) /\
       PyStr.contains "FDA OR EMA OR CDSCO" generic_query = true /\
       PyStr.contains "approved" (build_query agency) = true).
  { intros (A & B & C & D & E). repeat split; try tauto; apply Htable. }
  clear Htable.
  unfold build_query, known_agencies.
  destruct (String.eqb_spec agency "fda.gov") as [->|H1].
  { split; [reflexivity|]. split; [split; [simpl; auto | reflexivity]|].
    split; [intros H; exfalso; apply H; simpl; auto|].
    split; vm_compute; reflexivity. }
  destruct (String.eqb_spec agency "ema.europa.eu") as [->|H2].
  { split; [reflexivity|]. split; [split; [simpl; auto | reflexivity]|].
    split; [intros H; exfalso; apply H; simpl; auto|].
    split; vm_compute; reflexivity. }
  destruct (String.eqb_spec agency "cdsco.gov.in") as [->|H3].
  { split; [reflexivity|]. split; [split; [simpl; auto | reflexivity]|].
    split; [intros H; exfalso; apply H; simpl; auto|].
    split; vm_compute; reflexivity. }
  split; [simpl; intros [H|[H|[H|[]]]]; congruence|].
  split.
  - split; [vm_compute; discriminate|].
    simpl. intros [H|[H|[H|[]]]]; congruence.
  - split; [reflexivity|]. split; vm_compute; reflexivity.
Qed.

(** ** Start-up and entry point *)

(** Unfolds the combinators of the start-up monad in the goal. *)
Ltac run_host :=
  unfold and_then, done, halt, print, act, ask_host, sys_exit, lift; simpl.

Lemma new_actions_app m m' acts :
  actions m' = (actions m ++ acts)%list -> new_actions m m' = acts.
Proof. intros H. unfold new_actions. rewrite H. apply drop_app_length. Qed.

Section HostOnly.

Lemma host_only_done {A} (a : A) : host_only (done a).
Proof. intros m. split; [reflexivity | discriminate]. Qed.

Lemma host_only_unhandled {A} e : host_only (@halt A (Unhandled e)).
Proof. intros m. split; [reflexivity | discriminate]. Qed.

Lemma host_only_act a : host_only (act a).
Proof. intros m. split; [reflexivity | discriminate]. Qed.

Lemma host_only_ask {A} (f : nat -> A) : host_only (ask_host f).
Proof. intros m. split; [reflexivity | discriminate]. Qed.

Lemma host_only_and_then {A B} (p : P A) (k : A -> P B) :
  host_only p -> (forall a, host_only (k a)) -> host_only (and_then p k).
Proof.
  intros Hp Hk m. unfold and_then. destruct (Hp m) as [Hpipe Hno].
  destruct (p m) as [[a|st] m1]; simpl in *.
  - destruct (Hk a m1) as [Hpipe' Hno']. split; [congruence | exact Hno'].
  - split; [exact Hpipe|]. intros code [= ->]. now apply (Hno code).
Qed.

End HostOnly.

Ltac host_only_tac :=
  repeat first
    [ apply host_only_done | apply host_only_unhandled | apply host_only_act
    | apply host_only_ask
    | apply host_only_and_then; [|intros ?]
    | match goal with |- host_only (match ?x with _ => _ end) => destruct x end
    | match goal with |- host_only (if ?x then _ else _) => destruct x end
    | progress unfold print ].

Section StartUp.

Context (h : host).

Lemma host_only_import_statement name : host_only (import_statement h name).
Proof. unfold import_statement. host_only_tac. Qed.

Lemma host_only_install_package pkg imp : host_only (install_package h pkg imp).
Proof. unfold install_package. host_only_tac. Qed.

Lemma host_only_install_each packages :
  forall failed, host_only (install_each h packages failed).
Proof.
  induction packages as [|[pkg imp] rest IH]; intros failed; simpl.
  - apply host_only_done.
  - apply host_only_and_then; [apply host_only_install_package|].
    intros ok. apply IH.
Qed.

Lemma host_only_setup_dependencies : host_only (setup_dependencies h).
Proof.
  unfold setup_dependencies.
  apply host_only_and_then; [apply host_only_act|]. intros _.
  apply host_only_and_then; [apply host_only_install_each|]. intros failed.
  host_only_tac.
Qed.

Lemma host_only_get_api_keys : host_only (get_api_keys h).
Proof. unfold get_api_keys, getenv, input_stripped. host_only_tac. Qed.

Lemma host_only_configure key : host_only (configure h key).
Proof. unfold configure. host_only_tac. Qed.

(** One package, when neither call raises an unexpected exception. *)
Lemma install_package_summary pkg imp m :
  (forall t n, import_module h t n <> RaisesOther) ->
  (forall t p, pip_install h t p <> RaisesOther) ->
  exists ok m' acts,
    install_package h pkg (Some imp) m = (Done ok, m') /\
    actions m' = (actions m ++ acts)%list /\
    imports_of acts = [imp] /\
    failures_of acts = (if ok then [] else [pkg]) /\
    (pips_of acts = [] \/ pips_of acts = [pkg]) /\
    (ok = false -> pips_of acts = [pkg]) /\
    (import_module h (host_tick m) imp = Succeeds -> pips_of acts = []).
Proof.
  intros Himp Hpip. unfold install_package. run_host.
  specialize (Himp (host_tick m) imp).
  destruct (import_module h (host_tick m) imp); [| |congruence].
  - eexists; eexists; eexists. split; [reflexivity|]. simpl.
    rewrite <- app_assoc. split; [reflexivity|]. simpl.
    repeat split; auto; discriminate.
  - destruct (pip_install h _ pkg) eqn:E;
      [| |exfalso; eapply Hpip; exact E];
      eexists; eexists; eexists; (split; [reflexivity|]); simpl;
      repeat rewrite <- app_assoc; (split; [reflexivity|]); simpl;
      repeat split; auto; discriminate.
Qed.

Lemma install_each_summary packages :
  (forall t n, import_module h t n <> RaisesOther) ->
  (forall t p, pip_install h t p <> RaisesOther) ->
  forall failed m,
  exists failed' m' acts,
    install_each h packages failed m = (Done (failed ++ failed')%list, m') /\
    actions m' = (actions m ++ acts)%list /\
    imports_of acts = List.map snd packages /\
    failures_of acts = failed' /\
    Forall (fun p => p ∈ pips_of acts) failed' /\
    Forall (fun p => p ∈ List.map fst packages) (pips_of acts).
Proof.
  intros Himp Hpip.
  induction packages as [|[pkg imp] rest IH]; intros failed m.
  - exists [], m, []. simpl. rewrite !app_nil_r. repeat split; constructor.
  - simpl. unfold and_then at 1.
    destruct (install_package_summary pkg imp m Himp Hpip)
      as (ok & m1 & acts1 & Hrun & Hacts & Hi & Hf & Hp & Hpf & _).
    rewrite Hrun.
    destruct (IH (if ok then failed else (failed ++ [pkg])%list) m1)
      as (failed' & m' & acts & Hrun' & Hacts' & Hi' & Hf' & Hin & Hsub).
    exists ((if ok then [] else [pkg]) ++ failed')%list, m', (acts1 ++ acts)%list.
    rewrite Hrun', Hacts', Hacts.
    unfold imports_of, failures_of, pips_of in *. rewrite !omap_app.
    rewrite Hi, Hi', Hf, Hf'. simpl.
    split; [destruct ok; simpl; now rewrite <- ?app_assoc|].
    split; [now rewrite <- app_assoc|]. split; [reflexivity|].
    split; [reflexivity|]. split.
    + apply Forall_app. split.
      * destruct ok; [constructor|]. rewrite (Hpf eq_refl).
        repeat constructor.
      * eapply Forall_impl; [exact Hin|]. simpl. intros p Hp'.
        apply elem_of_app. now right.
    + apply Forall_app. split.
      * destruct Hp as [-> | ->]; repeat constructor.
      * eapply Forall_impl; [exact Hsub|]. simpl. intros p Hp'. now right.
Qed.

(** X13: [setup_dependencies] tries every package.  When no call raises
    an unexpected exception, it imports the eight modules in the order of
    the list, also after a failure; it returns [True] exactly when no
    package is reported as failed; a package is reported as failed only
    after pip was run for it, and pip is run for listed packages only;
    the pipeline is not touched. *)
Theorem setup_dependencies_tries_every_package m :
  (forall t n, import_module h t n <> RaisesOther) ->
  (forall t p, pip_install h t p <> RaisesOther) ->
  exists ok m',
    setup_dependencies h m = (Done ok, m') /\
    imports_of (new_actions m m') = List.map snd required_packages /\
    (ok = true <-> failures_of (new_actions m m') = []) /\
    Forall (fun p => p ∈ pips_of (new_actions m m'))
           (failures_of (new_actions m m')) /\
    Forall (fun p => p ∈ List.map fst required_packages)
           (pips_of (new_actions m m')) /\
    pipeline m' = pipeline m.
Proof.
  intros Himp Hpip. unfold setup_dependencies.
  unfold and_then at 1. unfold print at 1, act at 1.
  set (m0 := {| pipeline := pipeline m; host_tick := host_tick m;
                actions := actions m ++ [Print CheckingDependencies] |}).
  unfold and_then at 1.
  destruct (install_each_summary required_packages Himp Hpip [] m0)
    as (failed & m1 & acts & Hrun & Hacts & Hi & Hf & Hin & Hsub).
  rewrite Hrun. simpl app.
  assert (Hpipe : pipeline m1 = pipeline m).
  { pose proof (host_only_install_each required_packages [] m0) as [Hp _].
    rewrite Hrun in Hp. exact Hp. }
  destruct failed as [|p failed].
  - exists true, m1. split; [reflexivity|].
    assert (Hall : actions m1 =
                   (actions m ++ Print CheckingDependencies :: acts)%list).
    { rewrite Hacts. simpl. now rewrite <- app_assoc. }
    rewrite (new_actions_app _ _ _ Hall).
    change (imports_of (Print CheckingDependencies :: acts)) with (imports_of acts).
    change (failures_of (Print CheckingDependencies :: acts))
      with (failures_of acts).
    change (pips_of (Print CheckingDependencies :: acts)) with (pips_of acts).
    rewrite Hf. repeat split; auto.
  - exists false. run_host. eexists. split; [reflexivity|].
    erewrite new_actions_app
      by (simpl; rewrite Hacts; simpl; repeat rewrite <- app_assoc;
          reflexivity).
    simpl.
    unfold imports_of, failures_of, pips_of in *.
    cbn [omap list_omap]. rewrite !omap_app. simpl. rewrite !app_nil_r.
    rewrite Hi, Hf. repeat split; auto; discriminate.
Qed.

End StartUp.

Section EntryPoint.

Context (h : host) (w : world).

Lemma import_statement_run name m :
  import_statement h name m =
  let m1 := {| pipeline := pipeline m; host_tick := S (host_tick m);
               actions := actions m ++ [ImportModule name] |} in
  match import_module h (host_tick m) name with
  | Succeeds => (Done tt, m1)
  | _ => (Stopped (Unhandled ImportFailure), m1)
  end.
Proof.
  unfold import_statement. run_host.
  now destruct (import_module h (host_tick m) name).
Qed.

Lemma host_only_save_results results filename :
  host_only (save_results h results filename).
Proof. unfold save_results. host_only_tac. Qed.

Lemma main_never_exits key m code :
  fst (main h w key m) <> Stopped (SystemExit code).
Proof.
  unfold main. run_host.
  destruct (track_approvals w config key "fda.gov" "m" 10 (pipeline m))
    as [[[|r rest]|e] s']; simpl; try discriminate.
  match goal with
  | |- context [save_results h ?rows None ?m0] =>
      pose proof (host_only_save_results rows None m0) as [_ Hno];
      destruct (save_results h rows None m0) as [[path|st] m1]
  end; simpl in *; [discriminate|].
  intros [= ->]. now apply (Hno code).
Qed.

(** X14: the imports of [requests] and [pandas] stand before the
    installer.  When one of them cannot be imported, the script stops with
    the unhandled import error: the installer never runs, pip is not
    called and nothing is printed. *)
Theorem top_level_imports_precede_installer m :
  import_module h (host_tick m) "requests" <> Succeeds \/
  (import_module h (host_tick m) "requests" = Succeeds /\
   import_module h (S (host_tick m)) "pandas" <> Succeeds) ->
  exists m',
    script h w m = (Stopped (Unhandled ImportFailure), m') /\
    (new_actions m m' = [ImportModule "requests"] \/
     new_actions m m' = [ImportModule "requests"; ImportModule "pandas"]) /\
    pipeline m' = pipeline m.
Proof.
  intros H. unfold script. unfold and_then at 1.
  rewrite import_statement_run. cbv zeta.
  destruct H as [H | [H1 H2]].
  - eexists. split.
    + destruct (import_module h (host_tick m) "requests");
        [congruence | reflexivity | reflexivity].
    + split; [left; now apply new_actions_app | reflexivity].
  - rewrite H1. unfold and_then at 1. rewrite import_statement_run.
    cbv zeta. simpl host_tick.
    eexists. split.
    + destruct (import_module h (S (host_tick m)) "pandas");
        [congruence | reflexivity | reflexivity].
    + split; [|reflexivity]. right. apply new_actions_app. simpl.
      now rewrite <- app_assoc.
Qed.

(** X15: API keys.  A key that the environment holds, not empty, is
    returned as it is and not asked for; a key that is missing or empty is
    asked for once, the Gemini key first, and the answer is returned
    without the white space around it. *)
Theorem api_keys_from_environment_or_prompt m :
  let env_g := os_getenv h "GEMINI_API_KEY" in
  let env_s := os_getenv h "SERPAPI_API_KEY" in
  (forall t, console_input h t <> None) ->
  exists g k m',
    get_api_keys h m = (Done (g, k), m') /\
    inputs_of (new_actions m m') =
      ((if truthy env_g then [] else [EnterGeminiKey]) ++
       (if truthy env_s then [] else [EnterSerpApiKey]))%list /\
    (truthy env_g = true -> env_g = Some g) /\
    (truthy env_s = true -> env_s = Some k) /\
    (truthy env_g = false ->
       exists typed, console_input h (host_tick m) = Some typed /\
                     g = PyStr.strip typed) /\
    (truthy env_s = false ->
       exists typed,
         console_input h (if truthy env_g then host_tick m
                          else S (host_tick m)) = Some typed /\
         k = PyStr.strip typed).
Proof.
  intros env_g env_s Hin. unfold get_api_keys, getenv, input_stripped.
  run_host. fold env_g. fold env_s.
  assert (Hvalue : forall v, truthy v = true -> v = Some (get_or_empty v)).
  { intros [[|c v]|]; simpl; congruence. }
  destruct (truthy env_g) eqn:Hg; simpl.
  - destruct (truthy env_s) eqn:Hs; simpl.
    + eexists; eexists; eexists. split; [reflexivity|].
      erewrite new_actions_app
        by (simpl; repeat rewrite <- app_assoc; reflexivity).
      repeat split; auto; discriminate.
    + destruct (console_input h (host_tick m)) as [typed|] eqn:Ht;
        [|exfalso; eapply Hin; exact Ht]. simpl.
      eexists; eexists; eexists. split; [reflexivity|].
      erewrite new_actions_app
        by (simpl; repeat rewrite <- app_assoc; reflexivity).
      repeat split; auto; try discriminate. intros _. eauto.
  - destruct (console_input h (host_tick m)) as [typed|] eqn:Ht;
      [|exfalso; eapply Hin; exact Ht]. simpl.
    destruct (truthy env_s) eqn:Hs; simpl.
    + eexists; eexists; eexists. split; [reflexivity|].
      erewrite new_actions_app
        by (simpl; repeat rewrite <- app_assoc; reflexivity).
      repeat split; auto; try discriminate. intros _. eauto.
    + destruct (console_input h (S (host_tick m))) as [typed'|] eqn:Ht';
        [|exfalso; eapply Hin; exact Ht']. simpl.
      eexists; eexists; eexists. split; [reflexivity|].
      erewrite new_actions_app
        by (simpl; repeat rewrite <- app_assoc; reflexivity).
      repeat split; auto; try discriminate; intros _; eauto.
Qed.

End EntryPoint.

Section Exits.

Context (h : host) (w : world).

Lemma and_then_exit {A B} (p : P A) (k : A -> P B) m code :
  host_only p ->
  fst (and_then p k m) = Stopped (SystemExit code) ->
  exists a m1,
    p m = (Done a, m1) /\ pipeline m1 = pipeline m /\
    and_then p k m = k a m1.
Proof.
  intros Hp. destruct (Hp m) as [Hpipe Hno]. unfold and_then.
  destruct (p m) as [[a|st] m1]; simpl in *.
  - eauto.
  - intros [= ->]. now destruct (Hno code).
Qed.

Lemma track_approvals_returns cfg key agency range n s :
  exists processed s',
    track_approvals w cfg key agency range n s = (Returned processed, s').
Proof.
  destruct (search_returns w cfg key agency range n s) as (results & s0 & H).
  rewrite (track_approvals_run w cfg _ _ _ _ _ _ _ H).
  destruct (loop_collects w cfg results 0 [] s0) as (s' & ->). eauto.
Qed.

(** X16: [sys.exit] comes before the pipeline.  When the script ends
    with [sys.exit], the code is 1 and the pipeline was never started:
    no search, no fetch and no generative call was made, and no temporary
    file was written. *)
Theorem exit_leaves_pipeline_untouched m code :
  fst (script h w m) = Stopped (SystemExit code) ->
  code = 1 /\ pipeline (snd (script h w m)) = pipeline m.
Proof.
  unfold script. intros H.
  apply and_then_exit in H as H1; [|apply host_only_import_statement].
  destruct H1 as (_ & m1 & _ & Hp1 & E1). rewrite E1 in H |- *. clear E1.
  apply and_then_exit in H as H2; [|apply host_only_import_statement].
  destruct H2 as (_ & m2 & _ & Hp2 & E2). rewrite E2 in H |- *. clear E2.
  apply and_then_exit in H as H3; [|apply host_only_setup_dependencies].
  destruct H3 as (ok & m3 & _ & Hp3 & E3). rewrite E3 in H |- *. clear E3.
  destruct ok; cbn [negb] in H |- *.
  2: { simpl in *. injection H as <-. split; [reflexivity | congruence]. }
  apply and_then_exit in H as H4; [|apply host_only_import_statement].
  destruct H4 as (_ & m4 & _ & Hp4 & E4). rewrite E4 in H |- *. clear E4.
  apply and_then_exit in H as H5; [|apply host_only_import_statement].
  destruct H5 as (_ & m5 & _ & Hp5 & E5). rewrite E5 in H |- *. clear E5.
  apply and_then_exit in H as H6; [|apply host_only_import_statement].
  destruct H6 as (_ & m6 & _ & Hp6 & E6). rewrite E6 in H |- *. clear E6.
  apply and_then_exit in H as H7; [|apply host_only_import_statement].
  destruct H7 as (_ & m7 & _ & Hp7 & E7). rewrite E7 in H |- *. clear E7.
  apply and_then_exit in H as H8; [|apply host_only_import_statement].
  destruct H8 as (_ & m8 & _ & Hp8 & E8). rewrite E8 in H |- *. clear E8.
  apply and_then_exit in H as H9; [|apply host_only_act].
  destruct H9 as (_ & m9 & _ & Hp9 & E9). rewrite E9 in H |- *. clear E9.
  assert (Hbody : host_only
            (let$ keys := get_api_keys h in
             run$ configure h (fst keys) in
             done keys)).
  { apply host_only_and_then; [apply host_only_get_api_keys|]. intros keys.
    apply host_only_and_then; [apply host_only_configure|]. intros _.
    apply host_only_done. }
  unfold and_then at 1 in H. unfold and_then at 1.
  unfold try_except_exception in *.
  destruct (Hbody m9) as [Hpb Hnb].
  destruct ((let$ keys := get_api_keys h in
             run$ configure h (fst keys) in
             done keys) m9) as [[keys|[c|e]] m10]; simpl in Hpb, Hnb.
  - exfalso. unfold and_then at 1 in H. simpl in H.
    now apply main_never_exits in H.
  - now destruct (Hnb c).
  - simpl in *. injection H as <-. split; [reflexivity | congruence].
Qed.

(** X17: the entry point writes the CSV file exactly when the run has
    records.  For an empty result list [main] prints that nothing was
    found and writes nothing; otherwise, once the output directory
    exists, it hands all the records of the run, in their order, to
    [to_csv] once, under the time-stamped default name in [outputs]. *)
Theorem main_saves_nonempty_results key m :
  let run := track_approvals w config key "fda.gov" "m" 10 (pipeline m) in
  let m' := snd (main h w key m) in
  let path :=
    path_str h "outputs"
      ("drug_approvals_" ++ now_strftime h (host_tick m) ++ ".csv") in
  exists processed,
    fst run = Returned processed /\
    pipeline m' = snd run /\
    match processed with
    | [] =>
        fst (main h w key m) = Done tt /\
        new_actions m m' = [Print Starting; Print NoResults]
    | _ :: _ =>
        if path_mkdir h (S (host_tick m)) "outputs"
        then saves_of (new_actions m m') = [(path, processed)] /\
             (fst (main h w key m) = Done tt <->
              to_csv h (S (S (host_tick m))) path processed = true)
        else saves_of (new_actions m m') = [] /\
             fst (main h w key m) = Stopped (Unhandled MkdirFailure)
    end.
Proof.
  intros run m' path. subst run m'.
  destruct (track_approvals_returns config key "fda.gov" "m" 10 (pipeline m))
    as (processed & s' & Hrun).
  exists processed. unfold main. run_host. rewrite Hrun. simpl.
  split; [reflexivity|].
  destruct processed as [|r rest]; simpl.
  - split; [reflexivity|]. split; [reflexivity|].
    apply new_actions_app. simpl. now rewrite <- app_assoc.
  - unfold save_results. run_host. fold path.
    destruct (path_mkdir h (S (host_tick m)) "outputs"); simpl.
    + destruct (to_csv h (S (S (host_tick m))) path (r :: rest)); simpl;
        (split; [reflexivity|]);
        (erewrite new_actions_app
           by (simpl; repeat rewrite <- app_assoc; reflexivity));
        (split; [reflexivity|]); split; congruence.
    + split; [reflexivity|].
      erewrite new_actions_app
        by (simpl; repeat rewrite <- app_assoc; reflexivity).
      split; reflexivity.
Qed.

End Exits.

(** ** The further properties on concrete runs *)

Module MoreRuns.
Import Demo DemoHost.

Lemma blank_space : blank " ".
Proof. repeat constructor. Qed.

Lemma blank_newline : blank NL.
Proof. repeat constructor. Qed.

(** X1 on an answer with a space before the fence and a line break after
    it. *)
Lemma strip_fences_unwraps_witness :
  blank " " /\ blank NL /\ "```json" <> "" /\
  Forall (fun c => fence_char c = true) (chars "```json") /\
  strip_fences (" " ++ ("```json" ++ NL ++ "{}" ++ NL ++ "```") ++ NL)
  = NL ++ "{}" ++ NL.
Proof.
  assert (H3 : "```json" <> "") by discriminate.
  assert (H4 : Forall (fun c => fence_char c = true) (chars "```json"))
    by (repeat constructor).
  split; [exact blank_space|]. split; [exact blank_newline|].
  split; [exact H3|]. split; [exact H4|].
  exact (strip_fences_unwraps " " NL "```json" "{}"
           blank_space blank_newline H3 H4).
Defined.

(** X2 on the empty object with white space around it. *)
Lemma strip_fences_keeps_object_witness :
  blank " " /\ blank NL /\
  strip_fences (" " ++ ("{" ++ "" ++ "}") ++ NL) = "{" ++ "" ++ "}".
Proof.
  split; [exact blank_space|]. split; [exact blank_newline|].
  exact (strip_fences_keeps_object " " NL "" blank_space blank_newline).
Defined.

(** X3 on the answer [null], which comes out as [ull]. *)
Lemma strip_fences_edges_witness :
  strip_fences "null" = String "u" "ll" /\ fence_char "u" = false.
Proof.
  assert (H : strip_fences "null" = String "u" "ll") by reflexivity.
  split; [exact H|].
  exact (proj1 (strip_fences_edges "null") "u"%char "ll" H).
Defined.

(** X4 on the page [url_news]. *)
Lemma html_text_shape_witness :
  bs4_get_text world_raising news_text = Some news_text /\
  exists t s',
    _extract_html_content world_raising config news_text init_state
      = (Returned t, s') /\
    Forall (fun c => PyStr.is_linebreak c = false) (chars t) /\
    (forall c rest, t = String c rest -> PyStr.isspace c = false).
Proof.
  assert (H : bs4_get_text world_raising news_text = Some news_text)
    by reflexivity.
  split; [exact H|].
  exact (proj2 (html_text_shape world_raising config news_text init_state
                  news_text H)).
Defined.

(** X5 with the configuration of the program. *)
Lemma html_text_empty_iff_witness :
  0 < max_text_length config /\
  (fst (_extract_html_content world_raising config "   " init_state)
     = Returned "" <->
   bs4_get_text world_raising "   " = None \/
   exists raw, bs4_get_text world_raising "   " = Some raw /\ blank raw).
Proof.
  assert (H : 0 < max_text_length config) by (simpl; lia).
  split; [exact H|].
  exact (html_text_empty_iff world_raising config "   " init_state H).
Defined.

(** X6 on a text of 4000 characters and a longer one that starts with
    it. *)
Lemma analysis_calls_model_once_witness :
  PyStr.slice_to 4000 longer_text = PyStr.slice_to 4000 long_text /\
  analyze_content world_empty_object config longer_text url_news init_state
  = analyze_content world_empty_object config long_text url_news init_state.
Proof.
  assert (H : PyStr.slice_to 4000 longer_text = PyStr.slice_to 4000 long_text)
    by (vm_compute; reflexivity).
  split; [exact H|].
  exact (proj2 (analysis_calls_model_once world_empty_object config long_text
                  url_news init_state) longer_text H).
Defined.

(** X7 on the run of the four demo hits. *)
Lemma run_calls_witness :
  search_drug_approvals world_raising config "key" "fda.gov" "m" 10 init_state
    = (Returned hits, searched world_raising) /\
  exists processed s',
    track_approvals world_raising config "key" "fda.gov" "m" 10 init_state
      = (Returned processed, s') /\
    fetched_urls (new_events init_state s')
      = [url_down; url_news; url_broken; url_label] /\
    List.length (prompts_sent (new_events init_state s'))
      = List.length processed.
Proof.
  assert (H : search_drug_approvals world_raising config "key" "fda.gov" "m"
                10 init_state = (Returned hits, searched world_raising))
    by (vm_compute; reflexivity).
  split; [exact H|].
  destruct (run_calls world_raising config "key" "fda.gov" "m" 10 init_state
              hits (searched world_raising) H)
    as (processed & s' & Hrun & _ & Hf & Hp).
  exists processed, s'. split; [exact Hrun|]. split; [exact Hf | exact Hp].
Defined.

(** X8 on a search that raises. *)
Lemma failed_search_ends_run_witness :
  serpapi_get_dict world_search_down (tick init_state)
    (build_params (build_query "fda.gov") "key" "m" 10) = None /\
  exists s',
    track_approvals world_search_down config "key" "fda.gov" "m" 10 init_state
      = (Returned [], s') /\
    fetched_urls (new_events init_state s') = [] /\
    prompts_sent (new_events init_state s') = [] /\
    files s' = files init_state.
Proof.
  assert (H : serpapi_get_dict world_search_down (tick init_state)
                (build_params (build_query "fda.gov") "key" "m" 10) = None)
    by reflexivity.
  split; [exact H|].
  exact (failed_search_ends_run world_search_down config "key" "fda.gov" "m"
           10 init_state (or_introl H)).
Defined.

(** X9 on a run in which the model answers with the empty object. *)
Lemma records_carry_provenance_witness :
  search_drug_approvals world_empty_object config "key" "fda.gov" "m" 10
    init_state = (Returned hits, searched world_empty_object) /\
  exists processed s',
    track_approvals world_empty_object config "key" "fda.gov" "m" 10 init_state
      = (Returned processed, s') /\
    Forall (fun r => Forall (fun k => has_key r k = true) provenance_keys)
           processed.
Proof.
  assert (H : search_drug_approvals world_empty_object config "key" "fda.gov"
                "m" 10 init_state = (Returned hits, searched world_empty_object))
    by (vm_compute; reflexivity).
  split; [exact H|].
  exact (records_carry_provenance world_empty_object config "key" "fda.gov"
           "m" 10 init_state hits (searched world_empty_object) H).
Defined.

(** X10 on the two pages of the demo PDF. *)
Lemma pdf_text_in_page_order_witness :
  fitz_open world_raising good_pdf = Some (List.map Some ["Drug X "; "label"]) /\
  fst (_extract_pdf_content world_raising config good_pdf init_state)
  = Returned (PyStr.slice_to (max_text_length config)
                (PyStr.join "" ["Drug X "; "label"])).
Proof.
  assert (H : fitz_open world_raising good_pdf
              = Some (List.map Some ["Drug X "; "label"])) by reflexivity.
  split; [exact H|].
  exact (proj1 (pdf_text_in_page_order world_raising config good_pdf init_state)
           ["Drug X "; "label"] H).
Defined.

(** X11 on the fetch of the demo PDF. *)
Lemma extraction_leaves_no_file_witness :
  files init_state
    !! tempfile_name world_raising
         (tick (after_get config init_state url_label)) = None /\
  ~ pdf_parse_fails world_raising config init_state url_label /\
  files (snd (extract_content world_raising config url_label init_state))
  = files init_state.
Proof.
  assert (H1 : files init_state
                 !! tempfile_name world_raising
                      (tick (after_get config init_state url_label)) = None)
    by reflexivity.
  assert (H2 : ~ pdf_parse_fails world_raising config init_state url_label).
  { intros (resp & Hget & _ & _ & Hnone).
    vm_compute in Hget. injection Hget as <-.
    vm_compute in Hnone. discriminate. }
  split; [exact H1|]. split; [exact H2|].
  exact (extraction_leaves_no_file world_raising config url_label init_state
           H1 H2).
Defined.

(** X12 on the domain of the FDA. *)
Lemma query_site_restriction_witness :
  In "fda.gov" known_agencies /\
  PyStr.is_prefix ("site:" ++ "fda.gov" ++ " ") (build_query "fda.gov") = true.
Proof.
  assert (H : In "fda.gov" known_agencies) by (simpl; auto).
  split; [exact H|].
  exact (proj1 (query_site_restriction "fda.gov") H).
Defined.

Lemma host_of_import missing pip env typed t n :
  import_module (host_of missing pip env typed) t n <> RaisesOther.
Proof. simpl. destruct (existsb _ missing); discriminate. Qed.

Lemma host_of_pip missing pip env typed t p :
  pip_install (host_of missing pip env typed) t p <> RaisesOther.
Proof. simpl. destruct pip; discriminate. Qed.

(** X13 on a host where [fitz] is missing and pip fails. *)
Lemma setup_dependencies_tries_every_package_witness :
  (forall t n, import_module host_fitz_missing t n <> RaisesOther) /\
  (forall t p, pip_install host_fitz_missing t p <> RaisesOther) /\
  exists ok m',
    setup_dependencies host_fitz_missing init_machine = (Done ok, m') /\
    imports_of (new_actions init_machine m') = List.map snd required_packages /\
    (ok = true <-> failures_of (new_actions init_machine m') = []).
Proof.
  assert (H1 : forall t n, import_module host_fitz_missing t n <> RaisesOther)
    by apply host_of_import.
  assert (H2 : forall t p, pip_install host_fitz_missing t p <> RaisesOther)
    by apply host_of_pip.
  split; [exact H1|]. split; [exact H2|].
  destruct (setup_dependencies_tries_every_package host_fitz_missing
              init_machine H1 H2) as (ok & m' & Hrun & Hi & Hok & _).
  exists ok, m'. split; [exact Hrun|]. split; [exact Hi | exact Hok].
Defined.

(** X14 on a host without [requests]. *)
Lemma top_level_imports_precede_installer_witness :
  import_module host_no_requests (host_tick init_machine) "requests"
    <> Succeeds /\
  exists m',
    script host_no_requests world_raising init_machine
      = (Stopped (Unhandled ImportFailure), m') /\
    pipeline m' = pipeline init_machine.
Proof.
  assert (H : import_module host_no_requests (host_tick init_machine)
                "requests" <> Succeeds) by discriminate.
  split; [exact H|].
  destruct (top_level_imports_precede_installer host_no_requests world_raising
              init_machine (or_introl H)) as (m' & Hrun & _ & Hp).
  exists m'. split; [exact Hrun | exact Hp].
Defined.

(** X15 on a host without keys in the environment. *)
Lemma api_keys_from_environment_or_prompt_witness :
  (forall t, console_input host_asking t <> None) /\
  exists g k m',
    get_api_keys host_asking init_machine = (Done (g, k), m') /\
    inputs_of (new_actions init_machine m')
      = [EnterGeminiKey; EnterSerpApiKey].
Proof.
  assert (H : forall t, console_input host_asking t <> None) by discriminate.
  split; [exact H|].
  destruct (api_keys_from_environment_or_prompt host_asking init_machine H)
    as (g & k & m' & Hrun & Hin & _).
  exists g, k, m'. split; [exact Hrun | exact Hin].
Defined.

(** X16 on a host where [fitz] is missing and pip fails. *)
Lemma exit_leaves_pipeline_untouched_witness :
  fst (script host_fitz_missing world_raising init_machine)
    = Stopped (SystemExit 1) /\
  pipeline (snd (script host_fitz_missing world_raising init_machine))
    = pipeline init_machine.
Proof.
  assert (H : fst (script host_fitz_missing world_raising init_machine)
              = Stopped (SystemExit 1)) by (vm_compute; reflexivity).
  split; [exact H|].
  exact (proj2 (exit_leaves_pipeline_untouched host_fitz_missing world_raising
                  init_machine 1 H)).
Defined.

End MoreRuns.
